(** * Stock dashboards: data ingestion and derived metrics

    A shallow embedding of the two Streamlit dashboards of the repository:

    - [src/jason.py]: the recurring-investment-plan dashboard
      ([load_investment_data], [calculate_investment_summary], the chart
      functions and the table filter of [main]);
    - [src/stock_portfolio_dashboard.py]: the portfolio dashboard
      ([load_data], [create_sample_data] and the statistics computed by the
      script body).

    Both programs are pandas pipelines.  The embedding keeps pandas' view of
    the data: a frame is a list of named columns over a row index, a column
    is a series of cells, and a cell is missing ([NaN]), a number or a piece
    of text.  Python exceptions are values of an error monad, and the
    [try]/[except] blocks of the loaders are the places where that monad is
    run.

    Modelling conventions.
    - A number is an [int64], whose arithmetic wraps around, or a
      [float64], whose arithmetic is IEEE 754 binary64 (rounding to nearest
      even, infinities, NaN) as [Stdlib.Floats.SpecFloat] defines it.  A
      numeric column is of one of the two types; [pandas.to_numeric]
      decides which.  The missing value of a frame is the constructor
      [NaN], which is also what an arithmetic NaN becomes.
    - The order in which numpy adds the elements of a float column is a
      parameter, the class [Summation]; adding from left to right is an
      instance.
    - What the network and the CSV reader hand to the program is an input of
      the model: the outcome of [requests.get], and the frame (or the
      exception) that [pandas.read_csv] produces from the response body.
    - How pandas reads a piece of text as a number is a parameter, the class
      [ToNumeric]; [decimal] is an instance for plain signed decimal
      notation. *)

From Stdlib Require Import ZArith QArith Qpower Lia Ascii String.
From Stdlib Require Import Floats.SpecFloat.
From stdpp Require Import base option list strings gmap.

Open Scope string_scope.
Open Scope nat_scope.
Open Scope list_scope.

(** ** Python exceptions and the error monad *)

Module Py.

Inductive exn : Type :=
| RequestException   (* requests.exceptions.RequestException and subclasses *)
| EmptyDataError     (* pandas.errors.EmptyDataError *)
| ParserError        (* pandas.errors.ParserError *)
| URLError           (* urllib.error.URLError, HTTPError *)
| IndexError
| KeyError
| ValueError
| TypeError.

Definition result (A : Type) : Type := (exn + A)%type.

Definition ret {A} (a : A) : result A := inr a.
Definition raise {A} (e : exn) : result A := inl e.

Definition bind {A B} (m : result A) (k : A -> result B) : result B :=
  match m with
  | inl e => inl e
  | inr a => k a
  end.

(** [mapM] for the error monad: the first failure wins. *)
Fixpoint traverse {A B} (f : A -> result B) (l : list A) : result (list B) :=
  match l with
  | [] => ret []
  | a :: l' =>
      bind (f a) (fun b => bind (traverse f l') (fun bs => ret (b :: bs)))
  end.

End Py.

Import Py.

#[export] Instance result_ret : MRet result := @Py.ret.
#[export] Instance result_bind : MBind result := fun A B k m => Py.bind m k.

(** ** Text: [str.strip] *)

Module Text.

Definition of_codes (l : list nat) : string :=
  foldr (fun n s => String (Ascii.ascii_of_nat n) s) EmptyString l.

(** The characters Python's [str.strip()] removes, as UTF-8 byte
    sequences: U+0009..U+000D, U+001C..U+0020, U+0085, U+00A0, U+1680,
    U+2000..U+200A, U+2028, U+2029, U+202F, U+205F, U+3000. *)
Definition whitespace : list string :=
  map of_codes
    ([[9]; [10]; [11]; [12]; [13]; [28]; [29]; [30]; [31]; [32];
      [194; 133]; [194; 160]; [225; 154; 128]]
     ++ map (fun k => [226; 128; 128 + k]) (seq 0 11)
     ++ [[226; 128; 168]; [226; 128; 169]; [226; 128; 175];
         [226; 129; 159]; [227; 128; 128]]).

Fixpoint drop_prefix (p s : string) : option string :=
  match p, s with
  | EmptyString, _ => Some s
  | String a p', String b s' =>
      if Ascii.eqb a b then drop_prefix p' s' else None
  | String _ _, EmptyString => None
  end.

Fixpoint drop_any (ws : list string) (s : string) : option string :=
  match ws with
  | [] => None
  | w :: ws' =>
      match drop_prefix w s with
      | Some r => Some r
      | None => drop_any ws' s
      end
  end.

Fixpoint lstrip_fuel (ws : list string) (fuel : nat) (s : string) : string :=
  match fuel with
  | O => s
  | S fuel' =>
      match drop_any ws s with
      | Some r => lstrip_fuel ws fuel' r
      | None => s
      end
  end.

Definition lstrip_with (ws : list string) (s : string) : string :=
  lstrip_fuel ws (String.length s) s.

Definition lstrip (s : string) : string := lstrip_with whitespace s.

Definition rstrip (s : string) : string :=
  String.rev (lstrip_with (map String.rev whitespace) (String.rev s)).

Definition strip (s : string) : string := rstrip (lstrip s).

End Text.

(** ** Numbers *)

Module Num.

(** The numbers of numpy and of Python: [int64], which wraps around, and
    [float64], IEEE 754 binary64 with rounding to nearest even, as the
    Standard Library specifies it. *)
Definition prec : Z := 53.
Definition emax : Z := 1024.

Abbreviation float := spec_float.

Inductive number : Type :=
| Int (z : Z)
| Float (f : float).

(** Two's complement wrap-around of [int64]. *)
Definition wrap (z : Z) : Z := ((z + 2 ^ 63) mod 2 ^ 64 - 2 ^ 63)%Z.

(** An integer as an unrounded float, and the conversion of an [int64] to
    [float64], which rounds. *)
Definition exact (z : Z) : float :=
  match z with
  | Z0 => S754_zero false
  | Zpos m => S754_finite false m 0
  | Zneg m => S754_finite true m 0
  end.

Definition of_int (z : Z) : float := binary_normalize prec emax z 0 false.

(** The float nearest to the fraction [a / b]: the value of a decimal
    literal such as [0.1425], which is [ratio 1425 10000]. *)
Definition ratio (a b : Z) : float := SFdiv prec emax (exact a) (exact b).

Definition f64 (a b : Z) : number := Float (ratio a b).

Definition fzero : number := Float (S754_zero false).

Definition to_float (n : number) : float :=
  match n with
  | Int z => of_int z
  | Float f => f
  end.

Definition is_nan (n : number) : bool :=
  match n with
  | Float S754_nan => true
  | _ => false
  end.

(** Arithmetic: two integers stay [int64]; otherwise both operands are
    converted to [float64].  The division is numpy's true division, which
    always converts. *)
Definition add (a b : number) : number :=
  match a, b with
  | Int x, Int y => Int (wrap (x + y))
  | _, _ => Float (SFadd prec emax (to_float a) (to_float b))
  end.

Definition sub (a b : number) : number :=
  match a, b with
  | Int x, Int y => Int (wrap (x - y))
  | _, _ => Float (SFsub prec emax (to_float a) (to_float b))
  end.

Definition mul (a b : number) : number :=
  match a, b with
  | Int x, Int y => Int (wrap (x * y))
  | _, _ => Float (SFmul prec emax (to_float a) (to_float b))
  end.

Definition div (a b : number) : number :=
  Float (SFdiv prec emax (to_float a) (to_float b)).

(** Python's [/] on two of its own integers rounds the exact quotient. *)
Definition pydiv (a b : number) : number :=
  match a, b with
  | Int x, Int y => Float (SFdiv prec emax (exact x) (exact y))
  | _, _ => div a b
  end.

(** The value of a number on the extended line; a NaN has none. *)
Inductive level : Type :=
| Below
| At (q : Q)
| Above.

Definition value (n : number) : option level :=
  match n with
  | Int z => Some (At (inject_Z z))
  | Float (S754_zero _) => Some (At 0)
  | Float (S754_infinity s) => Some (if s then Below else Above)
  | Float S754_nan => None
  | Float (S754_finite s m e) =>
      Some (At (inject_Z (cond_Zopp s (Zpos m)) * 2 ^ e))
  end.

Definition level_ltb (x y : level) : bool :=
  match x, y with
  | Below, Below => false
  | Below, _ => true
  | At a, At b => match (a ?= b)%Q with Lt => true | _ => false end
  | At _, Above => true
  | _, _ => false
  end.

Definition level_leb (x y : level) : bool :=
  match x, y with
  | Below, _ => true
  | At a, At b => match (a ?= b)%Q with Gt => false | _ => true end
  | At _, Above => true
  | Above, Above => true
  | _, _ => false
  end.

(** [a < b] and [a <= b]: comparisons are on values, and false as soon as
    a NaN is involved. *)
Definition ltb (a b : number) : bool :=
  match value a, value b with
  | Some x, Some y => level_ltb x y
  | _, _ => false
  end.

Definition leb (a b : number) : bool :=
  match value a, value b with
  | Some x, Some y => level_leb x y
  | _, _ => false
  end.

(** [a != b] on two scalars: numpy compares an integer with a float after
    converting the integer. *)
Definition neqb (a b : number) : bool :=
  match a, b with
  | Int x, Int y => negb (x =? y)%Z
  | _, _ =>
      negb (leb (Float (to_float a)) (Float (to_float b))
            && leb (Float (to_float b)) (Float (to_float a)))
  end.

(** numpy's [add.reduce] over a [float64] array.  The order in which numpy
    adds the elements (pairwise, in blocks) is its own business; the
    dashboards only depend on the result. *)
Class Summation := float_sum : list float -> float.

(** Addition from left to right, which is what numpy does with fewer than
    eight numbers. *)
Definition sequential_sum (l : list float) : float :=
  foldl (SFadd prec emax) (S754_zero false) l.

(** How pandas reads text as a number ([pandas.to_numeric] on one string);
    [None] when it cannot. *)
Class ToNumeric := to_number : string -> option number.

Definition digit (c : Ascii.ascii) : option Z :=
  let n := Z.of_nat (Ascii.nat_of_ascii c) in
  if (48 <=? n)%Z && (n <=? 57)%Z then Some (n - 48)%Z else None.

(** The digits of an unsigned decimal: the digits as one integer, and the
    power of ten the fractional part divides it by ([None] for a text
    without a point). *)
Fixpoint unsigned (s : string) (num : Z) (den : option Z) (any : bool)
    : option (Z * option Z) :=
  match s with
  | EmptyString => if any then Some (num, den) else None
  | String c r =>
      if Ascii.eqb c "."%char then
        match den with
        | Some _ => None
        | None => unsigned r num (Some 1%Z) any
        end
      else
        match digit c with
        | Some d =>
            unsigned r (10 * num + d)%Z ((fun k => 10 * k)%Z <$> den) true
        | None => None
        end
  end.

(** An integer text is an [int64] when it fits, any other text a
    [float64]. *)
Definition signed (negative : bool) (s : string) : option number :=
  match unsigned s 0 None false with
  | Some (num, None) =>
      let z := if negative then (- num)%Z else num in
      Some (if (- 2 ^ 63 <=? z)%Z && (z <? 2 ^ 63)%Z
            then Int z else Float (of_int z))
  | Some (num, Some den) =>
      let f := ratio num den in
      Some (Float (if negative then SFopp f else f))
  | None => None
  end.

(** Plain decimal notation: an optional sign, digits, an optional
    fractional part. *)
Definition decimal_of (s : string) : option number :=
  match s with
  | String c r =>
      if Ascii.eqb c "-"%char then signed true r
      else if Ascii.eqb c "+"%char then signed false r
      else signed false s
  | EmptyString => None
  end.

#[export] Instance decimal : ToNumeric := decimal_of.
#[export] Instance sequential : Summation := sequential_sum.

End Num.

Import Num.


(** ** The part of pandas the dashboards use *)

Module Pandas.

(** A cell of a frame: missing, a number, or text (object dtype).  The
    missing value of pandas is the float NaN: the result of an operation
    is stored with [of_number], which makes a NaN the missing cell. *)
Inductive cell : Type :=
| NaN
| Num (n : number)
| Str (s : string).

Definition of_number (n : number) : cell :=
  if Num.is_nan n then NaN else Num n.

Abbreviation Series := (list cell).

(** A frame: the row labels, which survive row selection, and the
    columns in order, each a label with its series. *)
Record DataFrame : Type := mkDF {
  index : list nat;
  items : list (string * Series)
}.

(** [df.columns] *)
Definition columns (df : DataFrame) : list string := (items df).*1.

(** [len(df)] *)
Definition len (df : DataFrame) : nat := length (index df).

(** [df.empty]: some axis has length zero. *)
Definition empty (df : DataFrame) : bool :=
  (len df =? 0) || (length (columns df) =? 0).

(** [Series.notna()], one cell. *)
Definition notna (c : cell) : bool :=
  match c with
  | NaN => false
  | _ => true
  end.

(** The cell of a series at position [r]. *)
Definition at_row (r : nat) (s : Series) : cell := default NaN (s !! r).

(** The cells of the row at position [r]. *)
Definition row (df : DataFrame) (r : nat) : list cell :=
  at_row r <$> (items df).*2.

(** Boolean indexing of a list by a mask of the same length. *)
Fixpoint mask_filter {A} (mask : list bool) (l : list A) : list A :=
  match mask, l with
  | b :: mask', x :: l' =>
      if b then x :: mask_filter mask' l' else mask_filter mask' l'
  | _, _ => []
  end.

(** [df[mask]] *)
Definition select_rows (mask : list bool) (df : DataFrame) : DataFrame :=
  mkDF (mask_filter mask (index df))
       ((fun p => (p.1, mask_filter mask p.2)) <$> items df).

(** [df.dropna(how='all')]: a row goes when every cell of it is missing. *)
Definition dropna_all (df : DataFrame) : DataFrame :=
  select_rows ((fun r => existsb notna (row df r)) <$> seq 0 (len df)) df.

(** [df.iloc[:, k]] *)
Definition iloc_col (df : DataFrame) (k : nat) : result Series :=
  match items df !! k with
  | Some p => mret p.2
  | None => raise IndexError
  end.

(** [df.columns = names]: pandas refuses a list of another length. *)
Definition set_columns (names : list string) (df : DataFrame)
    : result DataFrame :=
  if length names =? length (columns df)
  then mret (mkDF (index df) (zip names (items df).*2))
  else raise ValueError.

(** [df.columns = df.columns.str.strip()] *)
Definition str_strip (df : DataFrame) : DataFrame :=
  mkDF (index df) ((fun p => (Text.strip p.1, p.2)) <$> items df).

(** [name in df.columns] *)
Definition has_column (name : string) (df : DataFrame) : bool :=
  bool_decide (name ∈ columns df).

(** [df[name]] is a series when the label is unique and a sub-frame when
    it is repeated. *)
Inductive selection : Type :=
| OneSeries (s : Series)
| SubFrame (ss : list Series).

Definition labelled (name : string) (df : DataFrame) : list Series :=
  (filter (fun p => p.1 = name) (items df)).*2.

Definition getitem (df : DataFrame) (name : string) : result selection :=
  match labelled name df with
  | [] => raise KeyError
  | [s] => mret (OneSeries s)
  | ss => mret (SubFrame ss)
  end.

(** [df[name] = s]: every column carrying the label is replaced; a new
    label is appended. *)
Definition setitem (df : DataFrame) (name : string) (s : Series)
    : DataFrame :=
  if has_column name df
  then mkDF (index df)
            ((fun p => if decide (p.1 = name) then (p.1, s) else p)
               <$> items df)
  else mkDF (index df) (items df ++ [(name, s)]).

(** A selection used where the program needs one series.  The only
    sub-frame that reaches such a place is caught by pandas with a
    [ValueError] when its result is stored into a single column. *)
Definition as_series (sel : selection) : result Series :=
  match sel with
  | OneSeries s => mret s
  | SubFrame _ => raise ValueError
  end.

(** *** The type of a column *)

Definition is_int (c : cell) : bool :=
  match c with
  | Num (Int _) => true
  | _ => false
  end.

Definition is_text (c : cell) : bool :=
  match c with
  | Str _ => true
  | _ => false
  end.

(** [astype(float64)], one cell. *)
Definition float64 (c : cell) : cell :=
  match c with
  | Num (Int z) => Num (Float (of_int z))
  | _ => c
  end.

(** A numeric column is [int64] when every cell of it is an integer;
    otherwise it is [float64] and its integers are converted. *)
Definition infer (s : Series) : Series :=
  if forallb is_int s then s else float64 <$> s.

Section Coercion.
Context `{ToNumeric}.

(** [pd.to_numeric(..., errors='coerce')], one cell: text that does not
    read as a number becomes missing. *)
Definition coerce (c : cell) : cell :=
  match c with
  | Str s =>
      match to_number s with
      | Some n => of_number n
      | None => NaN
      end
  | _ => c
  end.

(** [pd.to_numeric] takes a series, not a frame. *)
Definition to_numeric (sel : selection) : result Series :=
  match sel with
  | OneSeries s => mret (infer (coerce <$> s))
  | SubFrame _ => raise TypeError
  end.
End Coercion.

(** [Series.fillna(z)] on a numeric column, for an integer [z]: a column
    with a missing cell is [float64], so what is stored is a float. *)
Definition fillna (z : Z) (s : Series) : Series :=
  map (fun c => match c with NaN => Num (Float (of_int z)) | _ => c end) s.

(** Element-wise arithmetic.  Missing values propagate; text is not a
    number (the dashboards only compute on coerced columns). *)
Definition lift (op : number -> number -> number) (a b : cell) : cell :=
  match a, b with
  | Num x, Num y => of_number (op x y)
  | _, _ => NaN
  end.

Definition arith (op : number -> number -> number) (a b : cell)
    : result cell :=
  match a, b with
  | Str _, _ | _, Str _ => raise TypeError
  | _, _ => mret (lift op a b)
  end.

(** [series * k], [series / k], [series * series] *)
Definition mul_scalar (s : Series) (k : number) : result Series :=
  traverse (fun c => arith Num.mul c (Num k)) s.

Definition div_scalar (s : Series) (k : number) : result Series :=
  traverse (fun c => arith Num.div c (Num k)) s.

Definition mul_series (a b : Series) : result Series :=
  traverse (fun p => arith Num.mul p.1 p.2) (zip a b).

(** *** Reductions *)

(** What an aggregate of a selection is: one number for a series, one per
    column for a sub-frame ([DataFrame.sum()], [DataFrame.mean()]). *)
Inductive value : Type :=
| Scalar (c : cell)
| PerColumn (cs : list cell).

Section Reductions.
Context `{Summation}.

(** What a cell adds to a sum: pandas puts zero in the place of a missing
    cell before it adds. *)
Definition int0 (c : cell) : Z :=
  match c with
  | Num (Int z) => z
  | _ => 0%Z
  end.

Definition float0 (c : cell) : float :=
  match c with
  | Num n => to_float n
  | _ => S754_zero false
  end.

(** The sum of a numeric column: an [int64] with wrap-around for an
    [int64] column, numpy's float sum otherwise. *)
Definition total (s : Series) : cell :=
  if forallb is_int s
  then Num (Int (wrap (foldr Z.add 0%Z (int0 <$> s))))
  else of_number (Float (float_sum (float0 <$> s))).

(** [Series.count()] *)
Definition count (s : Series) : nat := length (filter (fun c => notna c) s).

(** The mean of a numeric column: the float sum, also of an [int64]
    column, divided by the count; [NaN] for a column without numbers. *)
Definition average (s : Series) : cell :=
  if count s =? 0 then NaN
  else of_number
         (Float (SFdiv prec emax (float_sum (float0 <$> s))
                   (of_int (Z.of_nat (count s))))).

(** [Series.sum()] and [Series.mean()]. *)
Definition sum (s : Series) : result cell :=
  if existsb is_text s then raise TypeError else mret (total s).

Definition mean (s : Series) : result cell :=
  if existsb is_text s then raise TypeError else mret (average s).

Definition sum_of (sel : selection) : result value :=
  match sel with
  | OneSeries s => c ← sum s; mret (Scalar c)
  | SubFrame ss => cs ← traverse sum ss; mret (PerColumn cs)
  end.

Definition mean_of (sel : selection) : result value :=
  match sel with
  | OneSeries s => c ← mean s; mret (Scalar c)
  | SubFrame ss => cs ← traverse mean ss; mret (PerColumn cs)
  end.
End Reductions.

End Pandas.

Import Pandas.

(** ** [src/jason.py]: the recurring-investment-plan dashboard *)

Module Jason.

(** What [requests.get(csv_url, headers=headers, timeout=30)] returned:
    the status of the response, and what
    [pd.read_csv(StringIO(response.text))] makes of its body. *)
Record Response : Type := mkResponse {
  status_code : nat;
  read_csv : result DataFrame
}.

(** [response.raise_for_status()]: an [HTTPError], a
    [RequestException], for the 4xx and 5xx codes. *)
Definition raise_for_status (r : Response) : result unit :=
  if (400 <=? status_code r) && (status_code r <? 600)
  then raise RequestException
  else mret tt.

Definition expected_columns : list string :=
  ["股票代號"; "股票名稱"; "每月投入金額"; "扣款日"; "券商折扣"].

(** The Python float [0.1425]. *)
Definition standard_fee : number := f64 1425 10000.

(** Lines 97-99: [dropna(how='all')], then the rows whose first two cells
    are both present. *)
Definition drop_blank_rows (df : DataFrame) : result DataFrame :=
  let df := dropna_all df in
  c0 ← iloc_col df 0;
  c1 ← iloc_col df 1;
  mret (select_rows (zip_with andb (notna <$> c0) (notna <$> c1)) df).

(** Lines 102-104. *)
Definition rename_columns (df : DataFrame) : result DataFrame :=
  if length expected_columns <=? length (columns df)
  then set_columns (take (length (columns df)) expected_columns) df
  else mret df.

Section WithParser.
Context `{ToNumeric}.

(** Lines 107-114, one column:
    [df[c] = pd.to_numeric(df[c], errors='coerce').fillna(0)] under
    [if c in df.columns]. *)
Definition coerce_column (name : string) (df : DataFrame)
    : result DataFrame :=
  if has_column name df then
    sel ← getitem df name;
    s ← to_numeric sel;
    mret (setitem df name (fillna 0 s))
  else mret df.

(** Lines 117-118. *)
Definition add_derived (df : DataFrame) : result DataFrame :=
  monthly ← getitem df "每月投入金額" ≫= as_series;
  annual ← mul_scalar monthly (Int 12);
  let df := setitem df "年度投入金額" annual in
  discount ← getitem df "券商折扣" ≫= as_series;
  rate ← div_scalar discount (Int 100);
  yearly ← getitem df "年度投入金額" ≫= as_series;
  fee ← mul_series rate yearly;
  mret (setitem df "預估年度手續費" fee).

(** Lines 95-120: everything after the CSV has been parsed. *)
Definition normalize (df : DataFrame) : result DataFrame :=
  df ← drop_blank_rows (str_strip df);
  df ← rename_columns df;
  df ← coerce_column "每月投入金額" df;
  df ← coerce_column "扣款日" df;
  df ← coerce_column "券商折扣" df;
  add_derived df.

(** The body of the [try] block; [get] is the outcome of
    [requests.get]. *)
Definition try_load (get : result Response) : result DataFrame :=
  response ← get;
  _ ← raise_for_status response;
  df ← read_csv response;
  normalize df.

(** The [except] clause that takes an exception. *)
Inductive handler : Type :=
| ExceptRequestException
| ExceptEmptyDataError
| ExceptException.

Definition except (e : exn) : handler :=
  match e with
  | RequestException => ExceptRequestException
  | EmptyDataError => ExceptEmptyDataError
  | _ => ExceptException
  end.

(** Every handler reports with [st.error] and returns [None]. *)
Definition load_investment_data (get : result Response)
    : option DataFrame :=
  match try_load get with
  | inr df => Some df
  | inl e => match except e with _ => None end
  end.

End WithParser.

(** [k * v] for a number [k] and an aggregate [v]. *)
Definition scale (k : cell) (v : value) : result value :=
  match v with
  | Scalar c => c' ← arith Num.mul k c; mret (Scalar c')
  | PerColumn cs =>
      cs' ← traverse (arith Num.mul k) cs; mret (PerColumn cs')
  end.

(** Line 159, the factor of the yearly total:
    [(standard_fee - mean) / 100]. *)
Definition savings_rate (m : number) : cell :=
  lift Num.div (lift Num.sub (Num standard_fee) (Num m)) (Num (Int 100)).

Section WithSummation.
Context `{Summation}.

(** The summary is a Python [dict]; [df is None] is [None] here. *)
Definition calculate_investment_summary (df : option DataFrame)
    : result (gmap string value) :=
  match df with
  | None => mret ∅
  | Some df =>
      if empty df then mret ∅ else
      let count := Scalar (Num (Int (Z.of_nat (len df)))) in
      monthly ← getitem df "每月投入金額" ≫= sum_of;
      annual ← getitem df "年度投入金額" ≫= sum_of;
      discount ← getitem df "券商折扣" ≫= mean_of;
      fee ← getitem df "預估年度手續費" ≫= sum_of;
      savings ←
        match discount with
        | Scalar (Num m) =>
            if Num.ltb (Int 0) m
            then scale (savings_rate m) annual
            else mret (Scalar (Num (Int 0)))
        | Scalar NaN => mret (Scalar (Num (Int 0)))
        | Scalar (Str _) => raise TypeError
        | PerColumn _ => raise ValueError
        end;
      mret (<["手續費節省" := savings]>
            (<["總預估手續費" := fee]>
             (<["平均券商折扣" := discount]>
              (<["年度總投入" := annual]>
               (<["每月總投入" := monthly]>
                (<["總股票數" := count]> ∅))))))
  end.
End WithSummation.

End Jason.

(** ** [src/stock_portfolio_dashboard.py]: the portfolio dashboard *)

Module Portfolio.

Definition create_sample_data : DataFrame :=
  mkDF (seq 0 6)
    [ ("股票代號", Str <$> ["2330"; "2317"; "2454"; "3008"; "2412"; "2382"]);
      ("股票名稱",
       Str <$> ["台積電"; "鴻海"; "聯發科"; "大立光"; "中華電"; "廣達"]);
      ("持股數量", Num ∘ Int <$> [100; 200; 50; 30; 150; 80]%Z);
      ("成本價", Num ∘ Int <$> [520; 95; 800; 2500; 120; 180]%Z);
      ("現價", Num ∘ Int <$> [580; 102; 750; 2800; 125; 190]%Z);
      ("市值", Num ∘ Int <$> [58000; 20400; 37500; 84000; 18750; 15200]%Z);
      ("盈虧金額", Num ∘ Int <$> [6000; 1400; -2500; 9000; 750; 800]%Z);
      ("盈虧比例",
       [Num (f64 1154 100); Num (f64 737 100); Num (f64 (-625) 100);
        Num (f64 120 10); Num (f64 417 100); Num (f64 556 100)]) ].

(** [read_csv] is the outcome of [pd.read_csv(csv_url)], which fetches
    and parses.  Any exception is answered with the sample data. *)
Definition load_data (read_csv : result DataFrame) : DataFrame :=
  match (df ← read_csv; mret (str_strip df)) with
  | inr df => df
  | inl _ => create_sample_data
  end.

Definition numeric_columns : list string :=
  ["持股數量"; "成本價"; "現價"; "市值"; "盈虧金額"; "盈虧比例"].

Section WithParser.
Context `{ToNumeric}.

(** Lines 94-96, one column: no [fillna] here. *)
Definition coerce_column (col : string) (df : DataFrame)
    : result DataFrame :=
  if has_column col df then
    sel ← getitem df col;
    s ← to_numeric sel;
    mret (setitem df col s)
  else mret df.

Definition coerce_numeric (df : DataFrame) : result DataFrame :=
  foldl (fun acc col => df ← acc; coerce_column col df)
        (mret df) numeric_columns.
End WithParser.

(** [df[col].sum() if col in df.columns else 0] *)
Definition column_sum `{Summation} (col : string) (df : DataFrame)
    : result cell :=
  if has_column col df
  then s ← getitem df col ≫= as_series; sum s
  else mret (Num (Int 0)).

(** [a != b] on two sums: a NaN differs from everything. *)
Definition neq (a b : cell) : bool :=
  match a, b with
  | Num x, Num y => Num.neqb x y
  | _, _ => true
  end.

(** Line 101. *)
Definition return_rate (market_value profit_loss : cell) : cell :=
  if neq market_value profit_loss
  then lift Num.mul
         (lift Num.div profit_loss
            (lift Num.sub market_value profit_loss))
         (Num (Int 100))
  else Num (Int 0).

(** [series > 0], [series < 0], one cell: a missing value compares
    false. *)
Definition compare_zero (above : bool) (c : cell) : result bool :=
  match c with
  | Num q => mret (if above then Num.ltb (Int 0) q else Num.ltb q (Int 0))
  | NaN => mret false
  | Str _ => raise TypeError
  end.

(** [len(df[df[col] > 0]) if col in df.columns else 0] *)
Definition count_rows (above : bool) (col : string) (df : DataFrame)
    : result nat :=
  if has_column col df then
    s ← getitem df col ≫= as_series;
    mask ← traverse (compare_zero above) s;
    mret (len (select_rows mask df))
  else mret 0.

Record statistics : Type := mkStatistics {
  total_market_value : cell;
  total_profit_loss : cell;
  total_return_rate : cell;
  profit_stocks : nat;
  loss_stocks : nat
}.

Section WithParser.
Context `{ToNumeric} `{Summation}.

(** Lines 93-105, the branch taken when the frame is not empty. *)
Definition overall (df : DataFrame) : result statistics :=
  df ← coerce_numeric df;
  market_value ← column_sum "市值" df;
  profit_loss ← column_sum "盈虧金額" df;
  profit ← count_rows true "盈虧金額" df;
  loss ← count_rows false "盈虧金額" df;
  mret (mkStatistics market_value profit_loss
          (return_rate market_value profit_loss) profit loss).

(** The script body down to the summary: [None] is the branch that
    shows the error message. *)
Definition dashboard (read_csv : result DataFrame)
    : result (option statistics) :=
  let df := load_data read_csv in
  if negb (empty df) then s ← overall df; mret (Some s) else mret None.
End WithParser.

End Portfolio.

(** ** [src/jason.py]: the charts and the table filter *)

Module Charts.

(** [c > k] and [c >= k] on a cell of a column: a missing value compares
    false, text against a number raises. *)
Definition gt (k : number) (c : cell) : result bool :=
  match c with
  | Num q => mret (Num.ltb k q)
  | NaN => mret false
  | Str _ => raise TypeError
  end.

Definition ge (k : number) (c : cell) : result bool :=
  match c with
  | Num q => mret (Num.leb k q)
  | NaN => mret false
  | Str _ => raise TypeError
  end.

(** The column a row mask is computed from.  Under a repeated label the
    mask would be a frame, which pandas cannot align with the frame it is
    applied to. *)
Definition mask_column (df : DataFrame) (name : string) : result Series :=
  sel ← getitem df name;
  match sel with
  | OneSeries s => mret s
  | SubFrame _ => raise ValueError
  end.

(** [df[df[name] > k]] and [df[df[name] >= k]] *)
Definition rows_gt (k : number) (name : string) (df : DataFrame)
    : result DataFrame :=
  s ← mask_column df name;
  mask ← traverse (gt k) s;
  mret (select_rows mask df).

Definition rows_ge (k : number) (name : string) (df : DataFrame)
    : result DataFrame :=
  s ← mask_column df name;
  mask ← traverse (ge k) s;
  mret (select_rows mask df).




(** One entry of [comparison_data]. *)
Record comparison : Type := mkComparison {
  name : cell;
  standard_cost : cell;
  discount_cost : cell
}.

(** [df.iterrows()] hands over each row as one series, of the common type
    of the columns: [object] when a column holds text (a number is then a
    Python integer or float), [int64] when every column is, [float64]
    otherwise (integers are then converted). *)
Inductive dtype : Type :=
| int64
| float64_dtype
| object.

Definition dtype_of (s : Series) : dtype :=
  if existsb is_text s then object
  else if forallb is_int s then int64
  else float64_dtype.

Definition row_dtype (df : DataFrame) : dtype :=
  let types := (fun p => dtype_of p.2) <$> items df in
  if existsb (fun t => match t with object => true | _ => false end) types
  then object
  else if forallb (fun t => match t with int64 => true | _ => false end)
            types
  then int64
  else float64_dtype.

Definition in_row (t : dtype) (c : cell) : cell :=
  match t with
  | float64_dtype => float64 c
  | _ => c
  end.

(** [row[label]] for the row at position [r] of [df.iterrows()].  The
    loop computes on scalars; a repeated label would give a series
    there. *)
Definition row_item (df : DataFrame) (r : nat) (label : string)
    : result cell :=
  match labelled label df with
  | [] => raise KeyError
  | [s] => mret (in_row (row_dtype df) (at_row r s))
  | _ => raise ValueError
  end.

(** [x / 100] on an element of a row: Python's own division in a row of
    objects, numpy's otherwise. *)
Definition row_div (t : dtype) : number -> number -> number :=
  match t with
  | object => Num.pydiv
  | _ => Num.div
  end.

(** Lines 238-247, the body of the loop for one row. *)
Definition compare_row (df : DataFrame) (r : nat)
    : result (option comparison) :=
  monthly ← row_item df r "每月投入金額";
  positive ← gt (Int 0) monthly;
  if positive : bool then
    annual_amount ← row_item df r "年度投入金額";
    standard ←
      arith Num.mul
        (lift Num.div (Num Jason.standard_fee) (Num (Int 100)))
        annual_amount;
    discount ← row_item df r "券商折扣";
    rate ← arith (row_div (row_dtype df)) discount (Num (Int 100));
    discounted ← arith Num.mul rate annual_amount;
    label ← row_item df r "股票名稱";
    mret (Some (mkComparison label standard discounted))
  else mret None.

(** Lines 229-252: the rows the grouped bar chart is drawn from, [None]
    when there is none. *)
Definition create_fee_comparison_chart (df : option DataFrame)
    : result (option (list comparison)) :=
  match df with
  | None => mret None
  | Some df =>
      if empty df then mret None else
      rows ← traverse (compare_row df) (seq 0 (len df));
      match omap id rows with
      | [] => mret None
      | comparison_data => mret (Some comparison_data)
      end
  end.

(** Lines 407-413 of [main]: the table under the two filter widgets;
    [min_amount] comes from a number input with minimum 0, which keeps
    an integer within the 53 bits a float holds exactly. *)
Definition filtered_df (show_zero : bool) (min_amount : Z)
    (df : DataFrame) : result DataFrame :=
  filtered ← (if negb show_zero
              then rows_gt (Int 0) "每月投入金額" df
              else mret df);
  if (0 <? min_amount)%Z
  then rows_ge (Int min_amount) "每月投入金額" filtered
  else mret filtered.

End Charts.

(** ** Sample sheets *)

Module Examples.

(** A response with status 200 whose body parses to [df]. *)
Definition ok (df : DataFrame) : result Jason.Response :=
  inr (Jason.mkResponse 200 (inr df)).

(** An integer cell, and the float cell of a decimal [a / b]. *)
Definition int (z : Z) : cell := Num (Int z).
Definition dec (a b : Z) : cell := Num (f64 a b).

(** A plan sheet of four lines: a full line, a line of empty fields, a
    line without a name and a line without a ticker. *)
Definition plan_sheet : DataFrame :=
  mkDF (seq 0 4)
    [ (" 代號", [Str "0050.TW"; NaN; Str "2330.TW"; NaN]);
      ("名稱 ", [Str "元大台灣50"; NaN; NaN; Str "台積電"]);
      ("金額", [Str "1000"; NaN; Str "5000"; Str "abc"]);
      ("日", [dec 6 1; NaN; dec 6 1; NaN]);
      ("折扣", [dec 1 10; NaN; dec 2 10; dec 3 10]) ].

(** One line: 1000 a month at a discount rate of 0.1. *)
Definition one_plan : DataFrame :=
  mkDF [0]
    [ ("股票代號", [Str "0050.TW"]); ("股票名稱", [Str "元大台灣50"]);
      ("每月投入金額", [int 1000]); ("扣款日", [int 6]);
      ("券商折扣", [dec 1 10]) ].

(** Two lines with discount rates 0.1 and 0.2 and 10000 a month each. *)
Definition two_plans : DataFrame :=
  mkDF [0; 1]
    [ ("股票代號", [Str "0050.TW"; Str "0056.TW"]);
      ("股票名稱", [Str "元大台灣50"; Str "元大高股息"]);
      ("每月投入金額", [int 10000; int 10000]);
      ("扣款日", [int 6; int 16]);
      ("券商折扣", [dec 1 10; dec 2 10]) ].

(** A monthly amount that is not a number. *)
Definition bad_amount : DataFrame :=
  mkDF [0]
    [ ("股票代號", [Str "0050.TW"]); ("股票名稱", [Str "元大台灣50"]);
      ("每月投入金額", [Str "abc"]); ("扣款日", [int 6]);
      ("券商折扣", [dec 1 10]) ].

(** A monthly amount at the upper end of [int64]. *)
Definition huge_amount : DataFrame :=
  mkDF [0]
    [ ("股票代號", [Str "0050.TW"]); ("股票名稱", [Str "元大台灣50"]);
      ("每月投入金額", [int 9223372036854775807]); ("扣款日", [int 6]);
      ("券商折扣", [dec 1 10]) ].

(** Three columns, six columns, one column, and a header without lines. *)
Definition short_sheet : DataFrame :=
  mkDF [0]
    [ ("代號", [Str "0050.TW"]); ("名稱", [Str "元大台灣50"]);
      ("金額", [int 1000]) ].

Definition wide_sheet : DataFrame :=
  mkDF [0]
    [ ("代號", [Str "0050.TW"]); ("名稱", [Str "元大台灣50"]);
      ("金額", [int 1000]); ("日", [int 6]); ("折扣", [dec 1 10]);
      ("備註", [Str "核心"]) ].

Definition narrow_sheet : DataFrame :=
  mkDF [0] [ ("代號", [Str "0050.TW"]) ].

Definition header_only : DataFrame :=
  mkDF []
    [ ("股票代號", []); ("股票名稱", []); ("每月投入金額", []);
      ("扣款日", []); ("券商折扣", []) ].

(** A holding whose market value is not a number. *)
Definition bad_holding : DataFrame :=
  mkDF [0; 1]
    [ ("股票代號", [int 2330; int 2317]);
      ("股票名稱", [Str "台積電"; Str "鴻海"]);
      ("市值", [Str "58000"; Str "abc"]);
      ("盈虧金額", [int 6000; int 1400]) ].

(** Holdings without the value and profit columns. *)
Definition names_only : DataFrame :=
  mkDF [0; 1]
    [ ("股票代號", [int 2330; int 2317]);
      ("股票名稱", [Str "台積電"; Str "鴻海"]) ].


(** A sheet with four columns under its own headers, without a column
    called 股票名稱; its second plan has no monthly amount. *)
Definition own_headers : DataFrame :=
  mkDF [0; 1]
    [ ("股票代號", [Str "0050.TW"; Str "0056.TW"]);
      ("名稱", [Str "元大台灣50"; Str "元大高股息"]);
      (" 每月投入金額", [int 1000; int 0]);
      ("券商折扣 ", [dec 1 10; dec 2 10]) ].

(** What the loader returns for [one_plan], [plan_sheet] (whose first
    line is the same plan, with a day column that had gaps and is
    therefore made of floats), [two_plans], [header_only], [bad_amount],
    [huge_amount] and [own_headers]. *)
Definition one_plan_loaded : DataFrame :=
  mkDF [0]
    [ ("股票代號", [Str "0050.TW"]); ("股票名稱", [Str "元大台灣50"]);
      ("每月投入金額", [int 1000]); ("扣款日", [int 6]);
      ("券商折扣", [dec 1 10]); ("年度投入金額", [int 12000]);
      ("預估年度手續費", [dec 12 1]) ].

Definition plan_sheet_loaded : DataFrame :=
  mkDF [0]
    [ ("股票代號", [Str "0050.TW"]); ("股票名稱", [Str "元大台灣50"]);
      ("每月投入金額", [int 1000]); ("扣款日", [dec 6 1]);
      ("券商折扣", [dec 1 10]); ("年度投入金額", [int 12000]);
      ("預估年度手續費", [dec 12 1]) ].

Definition two_plans_loaded : DataFrame :=
  mkDF [0; 1]
    [ ("股票代號", [Str "0050.TW"; Str "0056.TW"]);
      ("股票名稱", [Str "元大台灣50"; Str "元大高股息"]);
      ("每月投入金額", [int 10000; int 10000]);
      ("扣款日", [int 6; int 16]);
      ("券商折扣", [dec 1 10; dec 2 10]);
      ("年度投入金額", [int 120000; int 120000]);
      ("預估年度手續費", [dec 120 1; dec 240 1]) ].

Definition header_only_loaded : DataFrame :=
  mkDF []
    [ ("股票代號", []); ("股票名稱", []); ("每月投入金額", []);
      ("扣款日", []); ("券商折扣", []); ("年度投入金額", []);
      ("預估年度手續費", []) ].

Definition bad_amount_loaded : DataFrame :=
  mkDF [0]
    [ ("股票代號", [Str "0050.TW"]); ("股票名稱", [Str "元大台灣50"]);
      ("每月投入金額", [dec 0 1]); ("扣款日", [int 6]);
      ("券商折扣", [dec 1 10]); ("年度投入金額", [dec 0 1]);
      ("預估年度手續費", [dec 0 1]) ].

Definition huge_amount_loaded : DataFrame :=
  mkDF [0]
    [ ("股票代號", [Str "0050.TW"]); ("股票名稱", [Str "元大台灣50"]);
      ("每月投入金額", [int 9223372036854775807]); ("扣款日", [int 6]);
      ("券商折扣", [dec 1 10]); ("年度投入金額", [int (-12)]);
      ("預估年度手續費", [dec (-12) 1000]) ].

Definition own_headers_loaded : DataFrame :=
  mkDF [0; 1]
    [ ("股票代號", [Str "0050.TW"; Str "0056.TW"]);
      ("名稱", [Str "元大台灣50"; Str "元大高股息"]);
      ("每月投入金額", [int 1000; int 0]);
      ("券商折扣", [dec 1 10; dec 2 10]);
      ("年度投入金額", [int 12000; int 0]);
      ("預估年度手續費", [dec 12 1; dec 0 1]) ].

(** The entries of the summary of [two_plans_loaded], in the order the
    program makes them: count, monthly total, yearly total, mean rate,
    fees, savings.  The mean of 0.1 and 0.2 is 0.15000000000000002 in
    floats, and the savings -18.00000000000008. *)
Definition two_plans_entries : list (option value) :=
  [ Some (Scalar (int 2)); Some (Scalar (int 20000));
    Some (Scalar (int 240000));
    Some (Scalar (dec 15000000000000002 100000000000000000));
    Some (Scalar (dec 360 1));
    Some (Scalar (dec (-1800000000000008) 100000000000000)) ].

End Examples.

(** ** Vocabulary of the statements *)

(** A series that holds numbers only. *)
Definition numeric (s : Series) : Prop := Forall (λ c, ∃ n, c = Num n) s.

(** A series without text. *)
Definition textless (s : Series) : Prop := Forall (λ c, is_text c = false) s.

(** A column of one numeric type: integers only, or no integer. *)
Definition uniform (s : Series) : Prop :=
  Forall (λ c, is_int c = true) s ∨ Forall (λ c, is_int c = false) s.

(** Every column has one cell per row label. *)
Definition rectangular (df : DataFrame) : Prop :=
  Forall (λ p, length p.2 = len df) (items df).

(** The row labels [read_csv] gives: [0 .. n-1]. *)
Definition range_index (df : DataFrame) : Prop :=
  index df = seq 0 (len df).

(** The cell at row [r] of the [k]-th column ([NaN] beyond the frame). *)
Definition cell_at (df : DataFrame) (k r : nat) : cell :=
  match items df !! k with
  | Some p => at_row r p.2
  | None => NaN
  end.

(** Row [r] consists of missing cells only. *)
Definition blank_row (df : DataFrame) (r : nat) : bool :=
  forallb (λ c, negb (notna c)) (row df r).

(** Row [r] has a ticker and a name (its first two cells). *)
Definition identified_row (df : DataFrame) (r : nat) : bool :=
  notna (cell_at df 0 r) && notna (cell_at df 1 r).

(** What [pd.to_numeric(..., errors='coerce')] makes of a column, and
    what the [.fillna(0)] of the plan loader makes of that. *)
Definition converted `{ToNumeric} (s : Series) : Series :=
  infer (coerce <$> s).

Definition filled `{ToNumeric} (s : Series) : Series :=
  fillna 0 (converted s).

(** Column [name] of [t] is column [name] of [d] after the coercion of
    lines 107-114, or is absent from both. *)
Definition coerced_from `{ToNumeric} (name : string) (d t : DataFrame)
    : Prop :=
  (labelled name d = [] ∧ labelled name t = [])
  ∨ ∃ s, labelled name d = [s] ∧ labelled name t = [filled s].

(** The derived cells of a row with the monthly amount [m] and the
    discount rate [d], as lines 117-118 compute them. *)
Definition annual_amount (m : number) : cell :=
  of_number (Num.mul m (Int 12)).

Definition annual_fee (d m : number) : cell :=
  lift Num.mul (of_number (Num.div d (Int 100))) (annual_amount m).

Definition annual_amounts (ms : list number) : Series :=
  annual_amount <$> ms.

Definition annual_fees (ds ms : list number) : Series :=
  zip_with annual_fee ds ms.

(** The shape of a table the recurring-plan loader returns: the monthly
    amounts [ms] and the discount rates [ds] are numbers, and the two
    derived columns are computed from them. *)
Definition plan_table (t : DataFrame) (ms ds : list number) : Prop :=
  labelled "每月投入金額" t = [Num <$> ms]
  ∧ labelled "券商折扣" t = [Num <$> ds]
  ∧ labelled "年度投入金額" t = [annual_amounts ms]
  ∧ Forall (eq (annual_fees ds ms)) (labelled "預估年度手續費" t)
  ∧ labelled "預估年度手續費" t ≠ [].

(** The savings entry of the summary for the mean rate [mean] and the
    yearly total [annual], as lines 158-161 compute it. *)
Definition fee_savings (mean annual : cell) : cell :=
  match mean with
  | Num m =>
      if Num.ltb (Int 0) m
      then lift Num.mul (Jason.savings_rate m) annual
      else Num (Int 0)
  | _ => Num (Int 0)
  end.

(** A float above zero: a finite one or an infinity with the sign bit
    clear. *)
Definition positive_float (f : float) : bool :=
  match f with
  | S754_finite false _ _ | S754_infinity false => true
  | _ => false
  end.

(** The keys of the summary in the order lines 150-161 make them, and the
    entries of a dictionary under these keys. *)
Definition summary_keys : list string :=
  ["總股票數"; "每月總投入"; "年度總投入"; "平均券商折扣"; "總預估手續費";
   "手續費節省"].

Definition entries (summary : gmap string value) : list (option value) :=
  (λ key, summary !! key) <$> summary_keys.

(** The columns lines 107-114 of the recurring-plan loader coerce. *)
Definition plan_numeric_columns : list string :=
  ["每月投入金額"; "扣款日"; "券商折扣"].

(** Column [col] of [d] is column [col] of [df] after
    [pd.to_numeric(..., errors='coerce')], or is absent from both. *)
Definition coerced_only `{ToNumeric} (col : string) (df d : DataFrame)
    : Prop :=
  (labelled col df = [] ∧ labelled col d = [])
  ∨ ∃ s, labelled col df = [s] ∧ labelled col d = [converted s].

(** The labels of a frame after [df[name] = ...]. *)
Definition with_label (name : string) (cols : list string) : list string :=
  if bool_decide (name ∈ cols) then cols else cols ++ [name].


(** * Facts *)

(** ** The error monad *)

Lemma bind_inr {A B} (m : result A) (k : A → result B) (b : B) :
  m ≫= k = inr b ↔ ∃ a, m = inr a ∧ k a = inr b.
Proof.
  destruct m as [e|a]; simpl; split.
  - discriminate.
  - intros (a & Ha & _). discriminate.
  - eauto.
  - intros (a' & [= <-] & Hk). exact Hk.
Qed.

(** Unfold the monad operations where they meet a known outcome. *)
Ltac run :=
  unfold mret, mbind, result_ret, result_bind, Py.ret, Py.raise in *;
  cbn [Py.bind] in *.

(** Decompose a successful run [H : (x ← m; k) = inr b] into its steps. *)
Ltac step H :=
  let a := fresh "a" in
  let Ha := fresh "H" a in
  apply bind_inr in H as (a & Ha & H).

Lemma traverse_inr {A B} (f : A → result B) (l : list A) (l' : list B) :
  traverse f l = inr l' ↔ Forall2 (λ a b, f a = inr b) l l'.
Proof.
  revert l'. induction l as [|a l IH]; intros l'; simpl.
  - split.
    + intros [= <-]. constructor.
    + intros Hl. inversion Hl. reflexivity.
  - split.
    + intros Hl. destruct (f a) as [e|b] eqn:Hb; [discriminate|].
      destruct (traverse f l) as [e|bs] eqn:Hbs; [discriminate|].
      injection Hl as <-. constructor; [exact Hb|]. by apply IH.
    + intros Hl. inversion Hl as [|? b ? bs Hb Hbs]; subst.
      apply IH in Hbs. by rewrite Hb, Hbs.
Qed.

Lemma traverse_length {A B} (f : A → result B) (l : list A) (l' : list B) :
  traverse f l = inr l' → length l' = length l.
Proof. intros Hl%traverse_inr. symmetry. by eapply Forall2_length. Qed.

Lemma traverse_lookup {A B} (f : A → result B) (l : list A) (l' : list B)
    (i : nat) (a : A) :
  traverse f l = inr l' → l !! i = Some a →
  ∃ b, l' !! i = Some b ∧ f a = inr b.
Proof.
  intros Hl%traverse_inr Ha.
  destruct (Forall2_lookup_l _ _ _ _ _ Hl Ha) as (b & Hb & Hf). eauto.
Qed.

(** A traversal that cannot fail succeeds. *)
Lemma traverse_total {A B} (f : A → result B) (P : A → Prop) (l : list A) :
  (∀ a, P a → ∃ b, f a = inr b) → Forall P l → ∃ l', traverse f l = inr l'.
Proof.
  intros Hf. induction 1 as [|a l Ha _ [l' IH]]; simpl.
  - by eexists.
  - destruct (Hf a Ha) as [b ->]. rewrite IH. by eexists.
Qed.

(** ** Selecting and storing columns *)

Section Labels.
Implicit Types (df : DataFrame) (name other : string) (s : Series).
Implicit Types (l : list (string * Series)).

Lemma has_column_true name df :
  has_column name df = true ↔ name ∈ columns df.
Proof. unfold has_column. apply bool_decide_eq_true. Qed.

Lemma has_column_false name df :
  has_column name df = false ↔ name ∉ columns df.
Proof. unfold has_column. apply bool_decide_eq_false. Qed.

Lemma filter_label_nil name l :
  filter (λ p, p.1 = name) l = [] ↔ name ∉ l.*1.
Proof.
  induction l as [|[c x] l IH]; simpl.
  - split; [intros _; apply not_elem_of_nil | done].
  - rewrite filter_cons, not_elem_of_cons. simpl.
    destruct (decide (c = name)) as [->|Hc].
    + split; [done | intros [? _]; done].
    + rewrite IH. split; [intros Hn; split; [congruence|exact Hn] | by intros [_ Hn]].
Qed.

Lemma labelled_nil name df :
  labelled name df = [] ↔ has_column name df = false.
Proof.
  unfold labelled. rewrite has_column_false. unfold columns.
  rewrite <- filter_label_nil.
  destruct (filter _ _); simpl; split; congruence.
Qed.

Lemma getitem_absent name df :
  has_column name df = false → getitem df name = inl KeyError.
Proof. intros Hc%labelled_nil. unfold getitem. by rewrite Hc. Qed.

Lemma getitem_series df name s :
  getitem df name ≫= as_series = inr s ↔ labelled name df = [s].
Proof.
  unfold getitem. destruct (labelled name df) as [|s1 [|s2 ss]]; run; simpl; run.
  - split; discriminate.
  - split; congruence.
  - split; discriminate.
Qed.

Lemma getitem_one df name s :
  getitem df name = inr (OneSeries s) ↔ labelled name df = [s].
Proof.
  unfold getitem. destruct (labelled name df) as [|s1 [|s2 ss]]; run; simpl; run.
  - split; discriminate.
  - split; congruence.
  - split; discriminate.
Qed.

Lemma labelled_present name df s :
  labelled name df = [s] → has_column name df = true.
Proof.
  intros Hs. destruct (has_column name df) eqn:Hc; [done|].
  apply labelled_nil in Hc. congruence.
Qed.

Lemma columns_setitem_present df name s :
  has_column name df = true → columns (setitem df name s) = columns df.
Proof.
  intros Hc. unfold setitem, columns. rewrite Hc. simpl.
  rewrite <- list_fmap_compose. apply list_fmap_ext.
  intros _ [c x] _. simpl. by destruct (decide (c = name)).
Qed.

Lemma columns_setitem_absent df name s :
  has_column name df = false → columns (setitem df name s) = columns df ++ [name].
Proof.
  intros Hc. unfold setitem, columns. rewrite Hc. simpl.
  by rewrite fmap_app.
Qed.

Lemma index_setitem df name s : index (setitem df name s) = index df.
Proof. unfold setitem. by destruct (has_column name df). Qed.

Lemma has_column_setitem df name other s :
  has_column name df = true → has_column name (setitem df other s) = true.
Proof.
  rewrite !has_column_true. intros Hc.
  destruct (has_column other df) eqn:Ho.
  - by rewrite columns_setitem_present.
  - rewrite columns_setitem_absent by done. apply elem_of_app. by left.
Qed.

Lemma labelled_setitem_ne df name other s :
  name ≠ other → labelled name (setitem df other s) = labelled name df.
Proof.
  intros Hne. unfold labelled, setitem.
  destruct (has_column other df); simpl.
  - f_equal. induction (items df) as [|[c x] l IH]; [done|].
    rewrite fmap_cons, !filter_cons. simpl.
    destruct (decide (c = other)) as [->|Hc]; simpl.
    + rewrite !decide_False by congruence. exact IH.
    + destruct (decide (c = name)); by rewrite IH.
  - rewrite filter_app, filter_cons. simpl.
    rewrite decide_False by congruence. by rewrite filter_nil, app_nil_r.
Qed.

Lemma labelled_setitem_eq df name s :
  labelled name (setitem df name s)
  = if has_column name df
    then replicate (length (labelled name df)) s
    else [s].
Proof.
  unfold labelled, setitem.
  destruct (has_column name df) eqn:Hc; simpl.
  - clear Hc. induction (items df) as [|[c x] l IH]; [done|].
    rewrite fmap_cons, !filter_cons. simpl.
    destruct (decide (c = name)) as [->|Hne]; simpl.
    + rewrite decide_True by done. simpl. f_equal. exact IH.
    + rewrite decide_False by done. exact IH.
  - apply has_column_false, filter_label_nil in Hc.
    rewrite filter_app, Hc, filter_cons. simpl.
    by rewrite decide_True.
Qed.

(** Reading back a column that was just stored, where the program reads
    one series. *)
Lemma labelled_setitem_one df name s s' :
  labelled name (setitem df name s) = [s'] → s' = s.
Proof.
  rewrite labelled_setitem_eq. destruct (has_column name df).
  - destruct (length (labelled name df)) as [|[|n]]; simpl; congruence.
  - congruence.
Qed.

Lemma labelled_setitem_all df name s :
  Forall (eq s) (labelled name (setitem df name s))
  ∧ labelled name (setitem df name s) ≠ [].
Proof.
  rewrite labelled_setitem_eq. destruct (has_column name df) eqn:Hc.
  - split.
    + apply Forall_forall. by intros x [-> _]%elem_of_replicate.
    + destruct (labelled name df) eqn:Hl; [|done].
      apply labelled_nil in Hl. congruence.
  - split; [by repeat constructor | done].
Qed.
End Labels.

(** ** Selecting rows *)

Section Rows.
Context {A B : Type}.

Lemma mask_filter_length_eq (m : list bool) (l1 : list A) (l2 : list B) :
  length l1 = length l2 →
  length (mask_filter m l1) = length (mask_filter m l2).
Proof.
  revert l1 l2. induction m as [|b m IH]; intros [|x l1] [|y l2];
    simpl; try done.
  intros [= Hl]. destruct b; simpl; auto.
Qed.

Lemma mask_filter_fmap (g : A → bool) (l : list A) :
  mask_filter (g <$> l) l = filter (λ x, g x) l.
Proof.
  induction l as [|x l IH]; [done|].
  rewrite fmap_cons, filter_cons. simpl. rewrite IH.
  destruct (g x); by simpl.
Qed.

(** A mask computed row by row picks the cells of the rows it keeps. *)
Lemma mask_filter_rows (g : nat → bool) (d : A) (l : list A) (a : nat) :
  mask_filter (g <$> seq a (length l)) l
  = (λ i, default d (l !! (i - a))) <$> filter (λ i, g i) (seq a (length l)).
Proof.
  revert a. induction l as [|x l IH]; intros a; [done|].
  simpl length. rewrite <- cons_seq, fmap_cons, filter_cons. simpl.
  rewrite IH.
  assert (Hext : (λ i, default d (l !! (i - S a)))
                   <$> filter (λ i, g i) (seq (S a) (length l))
                 = (λ i, default d ((x :: l) !! (i - a)))
                   <$> filter (λ i, g i) (seq (S a) (length l))).
  { apply list_fmap_ext. intros k i Hi.
    apply list_elem_of_lookup_2, list_elem_of_filter in Hi as [_ Hi].
    apply elem_of_seq in Hi.
    replace (i - a) with (S (i - S a)) by lia. done. }
  destruct (g a); simpl.
  - rewrite Nat.sub_diag. simpl. by rewrite Hext.
  - exact Hext.
Qed.
End Rows.

Section Frames.
Implicit Types (df : DataFrame) (mask : list bool).

Lemma columns_select_rows mask df :
  columns (select_rows mask df) = columns df.
Proof.
  unfold columns, select_rows. simpl. rewrite <- list_fmap_compose.
  by apply list_fmap_ext.
Qed.

Lemma rectangular_select_rows mask df :
  rectangular df → rectangular (select_rows mask df).
Proof.
  unfold rectangular, select_rows, len. simpl. intros Hdf.
  apply Forall_fmap. eapply Forall_impl; [exact Hdf|].
  intros [c s] Hs. simpl in *. by apply mask_filter_length_eq.
Qed.

Lemma columns_str_strip df :
  columns (str_strip df) = Text.strip <$> columns df.
Proof.
  unfold columns, str_strip. simpl. rewrite <- !list_fmap_compose.
  by apply list_fmap_ext.
Qed.

Lemma rectangular_str_strip df : rectangular df → rectangular (str_strip df).
Proof.
  unfold rectangular, str_strip, len. simpl. intros Hdf.
  apply Forall_fmap. eapply Forall_impl; [exact Hdf|]. by intros [c s].
Qed.

Lemma rectangular_setitem df name (s : Series) :
  rectangular df → length s = len df → rectangular (setitem df name s).
Proof.
  unfold rectangular, setitem, len. intros Hdf Hs.
  destruct (has_column name df); simpl.
  - apply Forall_fmap. eapply Forall_impl; [exact Hdf|].
    intros [c x] Hx. simpl in *. by destruct (decide (c = name)).
  - apply Forall_app. split; [exact Hdf|]. by repeat constructor.
Qed.

Lemma rectangular_labelled df name (s : Series) :
  rectangular df → s ∈ labelled name df → length s = len df.
Proof.
  unfold rectangular, labelled. intros Hdf Hs.
  apply list_elem_of_fmap in Hs as ([c x] & -> & Hx).
  apply list_elem_of_filter in Hx as [_ Hx].
  by apply (proj1 (Forall_forall _ _) Hdf) in Hx.
Qed.
End Frames.

(** ** Numbers in series *)

Lemma traverse_fmap {A B C} (f : B → result C) (g : A → B) (h : A → C)
    (l : list A) :
  (∀ a, f (g a) = inr (h a)) → traverse f (g <$> l) = inr (h <$> l).
Proof.
  intros Hf. apply traverse_inr, Forall2_fmap, Forall_Forall2_diag, Forall_true.
  exact Hf.
Qed.


Section Numeric.
Context `{ToNumeric} `{Summation}.

Lemma numeric_fmap (s : Series) : numeric s ↔ ∃ ns, s = Num <$> ns.
Proof.
  split.
  - induction 1 as [|c s [n ->] _ [ns ->]].
    + by exists [].
    + by exists (n :: ns).
  - intros [ns ->]. apply Forall_fmap, Forall_true. intros n. by exists n.
Qed.

Lemma numeric_textless (s : Series) : numeric s → textless s.
Proof. intros Hs. eapply Forall_impl; [exact Hs|]. by intros c [n ->]. Qed.

Lemma textless_existsb (s : Series) :
  textless s → existsb is_text s = false.
Proof.
  induction 1 as [|c s Hc _ IH]; [done|]. simpl. by rewrite Hc, IH.
Qed.

Lemma of_number_not_text (n : number) : is_text (of_number n) = false.
Proof. unfold of_number. by destruct (Num.is_nan n). Qed.

Lemma lift_not_text (op : number → number → number) (a b : cell) :
  is_text (lift op a b) = false.
Proof.
  destruct a as [|x|?], b as [|y|?]; try done. apply of_number_not_text.
Qed.

Lemma coerce_not_text (c : cell) : is_text (coerce c) = false.
Proof.
  destruct c as [|n|x]; simpl; [done..|].
  destruct (to_number x); [apply of_number_not_text | done].
Qed.

Lemma arith_textless (op : number → number → number) (a b : cell) :
  is_text a = false → is_text b = false → arith op a b = inr (lift op a b).
Proof. by destruct a, b. Qed.

(** *** The type of a converted column *)

Lemma float64_not_int (c : cell) : is_int (float64 c) = false.
Proof. by destruct c as [|[z|f]|x]. Qed.

Lemma float64_not_text (c : cell) :
  is_text c = false → is_text (float64 c) = false.
Proof. by destruct c as [|[z|f]|x]. Qed.

Lemma length_infer (s : Series) : length (infer s) = length s.
Proof. unfold infer. destruct (forallb is_int s); by rewrite ?length_fmap. Qed.

Lemma infer_uniform (s : Series) : uniform (infer s).
Proof.
  unfold infer, uniform. destruct (forallb is_int s) eqn:Hs.
  - left. apply Forall_forall. intros c Hc.
    apply (proj1 (forallb_forall _ _) Hs). by apply list_elem_of_In.
  - right. apply Forall_fmap, Forall_true. intros c. apply float64_not_int.
Qed.

Lemma infer_textless (s : Series) : textless s → textless (infer s).
Proof.
  unfold infer. destruct (forallb is_int s); [done|]. intros Hs.
  apply Forall_fmap. eapply Forall_impl; [exact Hs|].
  intros c. apply float64_not_text.
Qed.

(** A missing cell stays missing, and makes the column a float one. *)
Lemma infer_missing (s : Series) (r : nat) :
  s !! r = Some NaN → infer s !! r = Some NaN.
Proof.
  intros Hr. unfold infer. destruct (forallb is_int s); [done|].
  by rewrite list_lookup_fmap, Hr.
Qed.

Lemma infer_present (s : Series) (r : nat) (c : cell) :
  infer s !! r = Some c → notna c = true →
  ∃ c', s !! r = Some c' ∧ notna c' = true.
Proof.
  unfold infer. destruct (forallb is_int s); [eauto|].
  rewrite list_lookup_fmap. destruct (s !! r) as [c'|]; [|done].
  intros [= <-]. exists c'. split; [done|]. by destruct c' as [|[z|f]|x].
Qed.

Lemma converted_textless (s : Series) : textless (converted s).
Proof.
  apply infer_textless, Forall_fmap, Forall_true.
  intros c. apply coerce_not_text.
Qed.

Lemma length_converted (s : Series) : length (converted s) = length s.
Proof. unfold converted. by rewrite length_infer, length_fmap. Qed.

Lemma converted_uniform (s : Series) : uniform (converted s).
Proof. apply infer_uniform. Qed.

(** A cell whose text does not read as a number is missing after the
    conversion. *)
Lemma converted_failure (s : Series) (r : nat) (x : string) :
  s !! r = Some (Str x) → to_number x = None →
  converted s !! r = Some NaN.
Proof.
  intros Hr Hx. apply infer_missing.
  rewrite list_lookup_fmap, Hr. simpl. by rewrite Hx.
Qed.

Lemma converted_missing (s : Series) (r : nat) :
  s !! r = Some NaN → converted s !! r = Some NaN.
Proof. intros Hr. apply infer_missing. by rewrite list_lookup_fmap, Hr. Qed.

(** *** The filled column of the plan loader *)

Lemma length_fillna (z : Z) (s : Series) : length (fillna z s) = length s.
Proof. unfold fillna. by rewrite length_map. Qed.

Lemma length_filled (s : Series) : length (filled s) = length s.
Proof. unfold filled. by rewrite length_fillna, length_converted. Qed.

Lemma fillna_numeric (z : Z) (s : Series) : textless s → numeric (fillna z s).
Proof.
  intros Hs. unfold fillna. apply Forall_fmap.
  eapply Forall_impl; [exact Hs|].
  intros [|n|x] Hc; simpl; eauto. done.
Qed.

Lemma filled_numeric (s : Series) : numeric (filled s).
Proof. apply fillna_numeric, converted_textless. Qed.

Lemma fillna_uniform (z : Z) (s : Series) : uniform s → uniform (fillna z s).
Proof.
  unfold fillna. intros [Hs|Hs].
  - left. apply Forall_fmap. eapply Forall_impl; [exact Hs|].
    by intros [|n|x].
  - right. apply Forall_fmap. eapply Forall_impl; [exact Hs|].
    by intros [|n|x].
Qed.

Lemma filled_uniform (s : Series) : uniform (filled s).
Proof. apply fillna_uniform, converted_uniform. Qed.

Lemma fillna_missing (s : Series) (r : nat) :
  s !! r = Some NaN → fillna 0 s !! r = Some (Num fzero).
Proof. intros Hr. unfold fillna. by rewrite list_lookup_fmap, Hr. Qed.

(** The cell-level policy of the recurring-plan loader. *)
Lemma filled_failure (s : Series) (r : nat) (x : string) :
  s !! r = Some (Str x) → to_number x = None →
  filled s !! r = Some (Num fzero).
Proof. intros Hr Hx. by apply fillna_missing, (converted_failure s r x). Qed.

Lemma filled_missing (s : Series) (r : nat) :
  s !! r = Some NaN → filled s !! r = Some (Num fzero).
Proof. intros Hr. by apply fillna_missing, converted_missing. Qed.

(** *** Arithmetic on columns of numbers *)

Lemma mul_scalar_Num (ns : list number) (k : number) :
  mul_scalar (Num <$> ns) k = inr ((λ n, of_number (Num.mul n k)) <$> ns).
Proof. unfold mul_scalar. by apply traverse_fmap. Qed.

Lemma div_scalar_Num (ns : list number) (k : number) :
  div_scalar (Num <$> ns) k = inr ((λ n, of_number (Num.div n k)) <$> ns).
Proof. unfold div_scalar. by apply traverse_fmap. Qed.

Lemma mul_series_textless (a b : Series) :
  textless a → textless b →
  mul_series a b = inr (zip_with (lift Num.mul) a b).
Proof.
  intros Ha Hb. unfold mul_series. apply traverse_inr. revert b Hb.
  induction Ha as [|x a Hx _ IH]; intros b Hb; [constructor|].
  destruct Hb as [|y b Hy Hb]; simpl; constructor; [|by apply IH].
  by apply arith_textless.
Qed.

Lemma annual_amounts_textless (ms : list number) :
  textless (annual_amounts ms).
Proof.
  apply Forall_fmap, Forall_true. intros m. apply of_number_not_text.
Qed.

Lemma annual_fees_textless (ds ms : list number) :
  textless (annual_fees ds ms).
Proof.
  unfold annual_fees. revert ms.
  induction ds as [|d ds IH]; intros [|m ms]; try by constructor.
  change (textless (annual_fee d m :: zip_with annual_fee ds ms)).
  constructor; [apply lift_not_text | apply IH].
Qed.

(** *** Reductions of columns without text *)

Lemma total_not_text (s : Series) : is_text (total s) = false.
Proof.
  unfold total. destruct (forallb is_int s); [done|].
  apply of_number_not_text.
Qed.

Lemma average_not_text (s : Series) : is_text (average s) = false.
Proof.
  unfold average. destruct (count s =? 0); [done|].
  apply of_number_not_text.
Qed.

Lemma sum_textless (s : Series) : textless s → sum s = inr (total s).
Proof. intros Hs. unfold sum. by rewrite textless_existsb. Qed.

Lemma mean_textless (s : Series) : textless s → mean s = inr (average s).
Proof. intros Hs. unfold mean. by rewrite textless_existsb. Qed.
End Numeric.
(** ** The stages of the recurring-plan loader *)

Section Stages.
Context `{ToNumeric}.
Implicit Types (df d t : DataFrame) (name other : string) (s : Series).

Lemma length_columns df : length (columns df) = length (items df).
Proof. unfold columns. by rewrite length_fmap. Qed.

(** *** Renaming *)

Lemma rename_columns_narrow df :
  length (columns df) < 5 → Jason.rename_columns df = inr df.
Proof.
  intros Hn. unfold Jason.rename_columns.
  change (length Jason.expected_columns) with 5.
  by rewrite (proj2 (Nat.leb_gt _ _)).
Qed.

Lemma rename_columns_exact df :
  length (columns df) = 5 →
  Jason.rename_columns df
  = inr (mkDF (index df) (zip Jason.expected_columns (items df).*2)).
Proof.
  intros Hn. unfold Jason.rename_columns, set_columns. by rewrite Hn.
Qed.

Lemma rename_columns_wide df :
  5 < length (columns df) → Jason.rename_columns df = inl ValueError.
Proof.
  intros Hn. unfold Jason.rename_columns, set_columns.
  change (length Jason.expected_columns) with 5.
  rewrite (proj2 (Nat.leb_le _ _)) by lia.
  rewrite length_take. change (length Jason.expected_columns) with 5.
  by rewrite (proj2 (Nat.eqb_neq _ _)) by lia.
Qed.

Lemma rename_columns_inr df d :
  Jason.rename_columns df = inr d →
  index d = index df ∧ (items d).*2 = (items df).*2
  ∧ length (columns df) ≤ 5.
Proof.
  intros Hd.
  destruct (Nat.lt_total (length (columns df)) 5) as [Hn|[Hn|Hn]].
  - rewrite rename_columns_narrow in Hd by done. injection Hd as <-.
    repeat split. lia.
  - rewrite rename_columns_exact in Hd by done.
    assert (d = mkDF (index df) (zip Jason.expected_columns (items df).*2))
      as -> by congruence.
    cbn [index items]. split; [done|]. split; [|lia].
    apply snd_zip. rewrite length_fmap, <- length_columns, Hn. done.
  - by rewrite rename_columns_wide in Hd.
Qed.

Lemma rename_columns_rectangular df d :
  Jason.rename_columns df = inr d → rectangular df → rectangular d.
Proof.
  intros Hd Hdf. destruct (rename_columns_inr _ _ Hd) as (Hi & Hs & _).
  unfold rectangular, len in *. rewrite Hi.
  apply (Forall_fmap snd (λ s : Series, length s = length (index df))).
  rewrite Hs. by apply Forall_fmap.
Qed.

(** *** Dropping rows *)

Lemma drop_blank_rows_narrow df :
  length (columns df) < 2 → Jason.drop_blank_rows df = inl IndexError.
Proof.
  rewrite length_columns. intros Hn.
  unfold Jason.drop_blank_rows, iloc_col, dropna_all, select_rows. simpl.
  rewrite !list_lookup_fmap.
  destruct (items df) as [|p0 [|p1 l]]; simpl in *; try done. lia.
Qed.

Lemma drop_blank_rows_inr df d :
  Jason.drop_blank_rows df = inr d →
  ∃ mask, d = select_rows mask (dropna_all df).
Proof.
  unfold Jason.drop_blank_rows. intros Hd.
  step Hd. step Hd. injection Hd as <-. eauto.
Qed.

Lemma drop_blank_rows_columns df d :
  Jason.drop_blank_rows df = inr d → columns d = columns df.
Proof.
  intros [mask ->]%drop_blank_rows_inr.
  unfold dropna_all. by rewrite !columns_select_rows.
Qed.

Lemma drop_blank_rows_rectangular df d :
  Jason.drop_blank_rows df = inr d → rectangular df → rectangular d.
Proof.
  intros [mask ->]%drop_blank_rows_inr Hdf.
  unfold dropna_all. by do 2 apply rectangular_select_rows.
Qed.

Lemma identified_not_blank df r :
  identified_row df r = true → existsb notna (row df r) = true.
Proof.
  unfold identified_row, cell_at, row. intros [H0 _]%andb_true_iff.
  destruct (items df) as [|p l]; simpl in *; [done|].
  by rewrite H0.
Qed.

(** The row labels that are left are those of the identified rows. *)
Lemma drop_blank_rows_index df d :
  rectangular df → range_index df → Jason.drop_blank_rows df = inr d →
  index d = filter (λ r, identified_row df r) (seq 0 (len df)).
Proof.
  intros Hrect Hidx Hd. unfold Jason.drop_blank_rows in Hd.
  set (g := λ r, existsb notna (row df r)) in *.
  set (rows := filter (λ r, g r) (seq 0 (len df))).
  assert (Hcol : ∀ k p, items df !! k = Some p →
            items (dropna_all df) !! k
            = Some (p.1, (λ r, at_row r p.2) <$> rows)).
  { intros k p Hp. unfold dropna_all, select_rows. simpl.
    rewrite list_lookup_fmap, Hp. simpl. do 2 f_equal.
    assert (Hlen : length p.2 = len df).
    { apply (proj1 (Forall_forall _ _) Hrect). by eapply list_elem_of_lookup_2. }
    fold g. rewrite <- Hlen at 1.
    rewrite (mask_filter_rows g NaN), Hlen. fold rows.
    apply list_fmap_ext. intros _ r _. unfold at_row.
    by rewrite Nat.sub_0_r. }
  assert (Hindex : index (dropna_all df) = rows).
  { unfold dropna_all, select_rows. simpl. fold g.
    transitivity (mask_filter (g <$> seq 0 (len df)) (seq 0 (len df))).
    - f_equal. exact Hidx.
    - apply mask_filter_fmap. }
  unfold iloc_col in Hd.
  destruct (items (dropna_all df) !! 0) as [q0|] eqn:Hq0; [|done].
  destruct (items (dropna_all df) !! 1) as [q1|] eqn:Hq1; [|done].
  run. injection Hd as <-. unfold select_rows at 1. cbn [index].
  rewrite Hindex.
  destruct (items df !! 0) as [p0|] eqn:Hp0.
  2:{ unfold dropna_all, select_rows in Hq0. simpl in Hq0.
      by rewrite list_lookup_fmap, Hp0 in Hq0. }
  destruct (items df !! 1) as [p1|] eqn:Hp1.
  2:{ unfold dropna_all, select_rows in Hq1. simpl in Hq1.
      by rewrite list_lookup_fmap, Hp1 in Hq1. }
  rewrite (Hcol _ _ Hp0) in Hq0. rewrite (Hcol _ _ Hp1) in Hq1.
  injection Hq0 as <-. injection Hq1 as <-. cbn [snd].
  rewrite <- !list_fmap_compose, zip_with_fmap_l, zip_with_fmap_r.
  rewrite zip_with_diag.
  rewrite (list_fmap_ext _ (identified_row df) rows).
  2:{ intros _ r _. unfold identified_row, cell_at, compose.
      by rewrite Hp0, Hp1. }
  rewrite mask_filter_fmap. unfold rows.
  apply list_filter_filter_l. intros r Hr. unfold g.
  apply Is_true_true, identified_not_blank. by apply Is_true_true.
Qed.

(** *** Coercion *)

Lemma coerce_column_absent name df :
  has_column name df = false → Jason.coerce_column name df = inr df.
Proof. unfold Jason.coerce_column. by intros ->. Qed.

Lemma coerce_column_present name df s :
  labelled name df = [s] →
  Jason.coerce_column name df = inr (setitem df name (filled s)).
Proof.
  intros Hs. unfold Jason.coerce_column, getitem.
  by rewrite (labelled_present _ _ _ Hs), Hs.
Qed.

Lemma coerce_column_inr name df d :
  Jason.coerce_column name df = inr d →
  (has_column name df = false ∧ d = df)
  ∨ (∃ s, labelled name df = [s] ∧ d = setitem df name (filled s)).
Proof.
  intros Hd. destruct (has_column name df) eqn:Hc.
  - right. unfold Jason.coerce_column, getitem in Hd. rewrite Hc in Hd.
    destruct (labelled name df) as [|s [|s' ss]] eqn:Hs; run; try done.
    exists s. split; [done|]. simpl in Hd. run.
    injection Hd as <-. reflexivity.
  - left. rewrite coerce_column_absent in Hd by done. split; congruence.
Qed.

Lemma coerce_column_spec name df d :
  Jason.coerce_column name df = inr d →
  index d = index df ∧ columns d = columns df
  ∧ (∀ other, other ≠ name → labelled other d = labelled other df)
  ∧ coerced_from name df d
  ∧ (rectangular df → rectangular d).
Proof.
  intros [[Hc ->]|(s & Hs & ->)]%coerce_column_inr.
  - repeat split; try done. left. by apply labelled_nil in Hc.
  - pose proof (labelled_present _ _ _ Hs) as Hc.
    split; [apply index_setitem|].
    split; [by apply columns_setitem_present|].
    split; [intros other Ho; by apply labelled_setitem_ne|].
    split.
    + right. exists s. split; [done|].
      by rewrite labelled_setitem_eq, Hc, Hs.
    + intros Hdf. apply rectangular_setitem; [done|].
      rewrite length_filled. apply (rectangular_labelled df name); [done|].
      rewrite Hs. by left.
Qed.

(** *** The derived columns *)

Lemma add_derived_inr d t :
  Jason.add_derived d = inr t →
  ∃ monthly discount annual rate fee,
    labelled "每月投入金額" d = [monthly]
    ∧ labelled "券商折扣" d = [discount]
    ∧ mul_scalar monthly (Int 12) = inr annual
    ∧ div_scalar discount (Int 100) = inr rate
    ∧ mul_series rate annual = inr fee
    ∧ labelled "年度投入金額" (setitem d "年度投入金額" annual) = [annual]
    ∧ t = setitem (setitem d "年度投入金額" annual) "預估年度手續費" fee.
Proof.
  unfold Jason.add_derived. intros Ht.
  apply bind_inr in Ht as (monthly & Hmonthly%getitem_series & Ht).
  apply bind_inr in Ht as (annual & Hannual & Ht).
  apply bind_inr in Ht as (discount & Hdiscount%getitem_series & Ht).
  apply bind_inr in Ht as (rate & Hrate & Ht).
  apply bind_inr in Ht as (yearly & Hyearly%getitem_series & Ht).
  apply bind_inr in Ht as (fee & Hfee & Ht).
  pose proof (labelled_setitem_one _ _ _ _ Hyearly) as ->.
  rewrite labelled_setitem_ne in Hdiscount by done.
  exists monthly, discount, annual, rate, fee.
  repeat split; try done. run. congruence.
Qed.

Lemma coerced_from_numeric name d t s :
  coerced_from name d t → labelled name t = [s] → numeric s.
Proof.
  intros [[_ Ht]|(s0 & _ & Ht)] Hs; [congruence|].
  assert (s = filled s0) as -> by congruence.
  apply filled_numeric.
Qed.

(** What a successful normalization went through, and the shape of its
    result. *)
Lemma normalize_inr df t :
  Jason.normalize df = inr t →
  ∃ d0 d,
    Jason.drop_blank_rows (str_strip df) = inr d0
    ∧ Jason.rename_columns d0 = inr d
    ∧ index t = index d
    ∧ coerced_from "每月投入金額" d t
    ∧ coerced_from "扣款日" d t
    ∧ coerced_from "券商折扣" d t
    ∧ (∃ ms ds, plan_table t ms ds)
    ∧ (rectangular df → rectangular t).
Proof.
  unfold Jason.normalize. intros Ht.
  apply bind_inr in Ht as (d0 & Hd0 & Ht).
  apply bind_inr in Ht as (d & Hd & Ht).
  apply bind_inr in Ht as (d1 & Hd1 & Ht).
  apply bind_inr in Ht as (d2 & Hd2 & Ht).
  apply bind_inr in Ht as (d3 & Hd3 & Ht).
  apply coerce_column_spec in Hd1 as (Hi1 & _ & Ho1 & Hc1 & Hr1).
  apply coerce_column_spec in Hd2 as (Hi2 & _ & Ho2 & Hc2 & Hr2).
  apply coerce_column_spec in Hd3 as (Hi3 & _ & Ho3 & Hc3 & Hr3).
  apply add_derived_inr in Ht
    as (monthly & discount & annual & rate & fee
        & Hmonthly & Hdiscount & Hannual & Hrate & Hfee & Hyearly & ->).
  (* the three coerced columns, read in the result *)
  assert (Hkeep : ∀ name x,
            name ≠ "年度投入金額" → name ≠ "預估年度手續費" →
            labelled name
              (setitem (setitem d3 "年度投入金額" annual)
                 "預估年度手續費" x)
            = labelled name d3).
  { intros name x H1 H2. by rewrite !labelled_setitem_ne. }
  assert (Hmonth : coerced_from "每月投入金額" d d3).
  { unfold coerced_from in *.
    rewrite (Ho3 "每月投入金額"), (Ho2 "每月投入金額") by done. exact Hc1. }
  assert (Hday : coerced_from "扣款日" d d3).
  { unfold coerced_from in *.
    rewrite (Ho3 "扣款日") by done.
    rewrite <- (Ho1 "扣款日") by done. exact Hc2. }
  assert (Hdisc : coerced_from "券商折扣" d d3).
  { unfold coerced_from in *.
    rewrite <- (Ho1 "券商折扣"), <- (Ho2 "券商折扣") by done. exact Hc3. }
  destruct (proj1 (numeric_fmap monthly)) as [ms ->].
  { exact (coerced_from_numeric _ _ _ _ Hmonth Hmonthly). }
  destruct (proj1 (numeric_fmap discount)) as [ds ->].
  { exact (coerced_from_numeric _ _ _ _ Hdisc Hdiscount). }
  rewrite mul_scalar_Num in Hannual.
  assert (annual = annual_amounts ms) as ->
    by (injection Hannual as <-; reflexivity).
  rewrite div_scalar_Num in Hrate.
  assert (rate = (λ n, of_number (Num.div n (Int 100))) <$> ds) as ->
    by congruence.
  rewrite mul_series_textless in Hfee.
  2:{ apply Forall_fmap, Forall_true. intros n. apply of_number_not_text. }
  2:{ apply annual_amounts_textless. }
  unfold annual_amounts in Hfee.
  rewrite zip_with_fmap_l, zip_with_fmap_r in Hfee.
  assert (fee = annual_fees ds ms) as ->
    by (injection Hfee as <-; reflexivity).
  exists d0, d. split; [done|]. split; [done|].
  split; [rewrite !index_setitem; congruence|].
  split; [unfold coerced_from in *; rewrite Hkeep by done; exact Hmonth|].
  split; [unfold coerced_from in *; rewrite Hkeep by done; exact Hday|].
  split; [unfold coerced_from in *; rewrite Hkeep by done; exact Hdisc|].
  split.
  - exists ms, ds. unfold plan_table.
    rewrite !Hkeep by done.
    split; [done|]. split; [done|]. split.
    + by rewrite labelled_setitem_ne.
    + apply labelled_setitem_all.
  - intros Hdf.
    assert (Hd3 : rectangular d3).
    { apply Hr3, Hr2, Hr1. eapply rename_columns_rectangular; [done|].
      eapply drop_blank_rows_rectangular; [done|].
      by apply rectangular_str_strip. }
    assert (Hms : length ms = len d3).
    { rewrite <- (length_fmap Num).
      apply (rectangular_labelled d3 "每月投入金額"); [done|].
      rewrite Hmonthly. by left. }
    assert (Hds : length ds = len d3).
    { rewrite <- (length_fmap Num).
      apply (rectangular_labelled d3 "券商折扣"); [done|].
      rewrite Hdiscount. by left. }
    apply rectangular_setitem.
    + apply rectangular_setitem; [done|].
      unfold annual_amounts. by rewrite length_fmap.
    + unfold len. rewrite index_setitem. fold (len d3).
      unfold annual_fees. rewrite length_zip_with. lia.
Qed.
End Stages.

(** ** The summary *)

Section Summary.
Context `{Summation}.
Implicit Types (t : DataFrame) (ms ds : list number) (s : Series).

Lemma getitem_labelled_one t name s :
  labelled name t = [s] → getitem t name = inr (OneSeries s).
Proof. intros Hs. by apply getitem_one. Qed.

Lemma sum_of_series s :
  textless s → sum_of (OneSeries s) = inr (Scalar (total s)).
Proof. intros Hs. unfold sum_of. by rewrite (sum_textless s Hs). Qed.

Lemma mean_of_series s :
  textless s → mean_of (OneSeries s) = inr (Scalar (average s)).
Proof. intros Hs. unfold mean_of. by rewrite (mean_textless s Hs). Qed.

(** The aggregate of a column without text whose copies are all equal. *)
Lemma sum_of_copies t name s :
  textless s →
  Forall (eq s) (labelled name t) → labelled name t ≠ [] →
  ∃ v, getitem t name ≫= sum_of = inr v.
Proof.
  intros Hs Hall Hne. unfold getitem.
  destruct (labelled name t) as [|s0 [|s' ss]] eqn:Hl; [done|..]; run.
  - apply Forall_cons in Hall as [<- _].
    rewrite (sum_of_series s Hs). eauto.
  - unfold sum_of.
    destruct (traverse_total sum (eq s) (s0 :: s' :: ss)) as [cs Hcs].
    + intros a <-. rewrite (sum_textless s Hs). eauto.
    + done.
    + rewrite Hcs. run. eauto.
Qed.

Lemma scale_scalar (k c : cell) :
  is_text k = false → is_text c = false →
  Jason.scale k (Scalar c) = inr (Scalar (lift Num.mul k c)).
Proof.
  intros Hk Hc. unfold Jason.scale. by rewrite (arith_textless _ _ _ Hk Hc).
Qed.

Lemma savings_rate_not_text (m : number) :
  is_text (Jason.savings_rate m) = false.
Proof. apply lift_not_text. Qed.

(** The summary of a loaded table with at least one row. *)
Lemma summary_of_plan_table t ms ds :
  plan_table t ms ds → empty t = false →
  ∃ fee,
    Jason.calculate_investment_summary (Some t)
    = inr (<["手續費節省" :=
               Scalar (fee_savings (average (Num <$> ds))
                         (total (annual_amounts ms)))]>
           (<["總預估手續費" := fee]>
            (<["平均券商折扣" := Scalar (average (Num <$> ds))]>
             (<["年度總投入" := Scalar (total (annual_amounts ms))]>
              (<["每月總投入" := Scalar (total (Num <$> ms))]>
               (<["總股票數" := Scalar (Num (Int (Z.of_nat (len t))))]>
                ∅)))))).
Proof.
  intros (Hms & Hds & Hannual & Hfee & Hne) Hempty.
  destruct (sum_of_copies _ _ _ (annual_fees_textless ds ms) Hfee Hne)
    as [fee Hsum].
  exists fee. unfold Jason.calculate_investment_summary.
  rewrite Hempty.
  rewrite (getitem_labelled_one _ _ _ Hms).
  rewrite (getitem_labelled_one _ _ _ Hannual).
  rewrite (getitem_labelled_one _ _ _ Hds).
  rewrite Hsum. run.
  assert (Hm : textless (Num <$> ms)).
  { apply numeric_textless, numeric_fmap. by exists ms. }
  assert (Hd : textless (Num <$> ds)).
  { apply numeric_textless, numeric_fmap. by exists ds. }
  rewrite (sum_of_series _ Hm), (mean_of_series _ Hd).
  rewrite (sum_of_series _ (annual_amounts_textless ms)). run.
  pose proof (average_not_text (Num <$> ds)) as Hmean.
  destruct (average (Num <$> ds)) as [|m|x]; [reflexivity| |done].
  unfold fee_savings. destruct (Num.ltb (Int 0) m); [|reflexivity].
  rewrite scale_scalar; [reflexivity|apply savings_rate_not_text|].
  apply total_not_text.
Qed.
End Summary.

(** ** The loader as a whole *)

Section Loader.
Context `{ToNumeric}.
Implicit Types (df t : DataFrame) (status : nat).

Lemma load_investment_data_Some status df t :
  Jason.load_investment_data (inr (Jason.mkResponse status (inr df)))
  = Some t →
  Jason.normalize df = inr t.
Proof.
  unfold Jason.load_investment_data, Jason.try_load. run.
  destruct (Jason.raise_for_status _) as [e|[]]; run; [done|].
  simpl. destruct (Jason.normalize df) as [e|t']; [done|]. congruence.
Qed.

Lemma try_load_fetched status df :
  Jason.raise_for_status (Jason.mkResponse status (inr df)) = inr tt →
  Jason.try_load (inr (Jason.mkResponse status (inr df)))
  = Jason.normalize df.
Proof. unfold Jason.try_load. run. by intros ->. Qed.

Lemma normalize_narrow df :
  length (columns df) < 2 → Jason.normalize df = inl IndexError.
Proof.
  intros Hn. unfold Jason.normalize.
  rewrite drop_blank_rows_narrow; [done|].
  by rewrite columns_str_strip, length_fmap.
Qed.

Lemma blank_not_identified df r :
  blank_row df r = true → identified_row df r = false.
Proof.
  unfold blank_row, identified_row, cell_at, row.
  destruct (items df) as [|p l]; simpl; [done|].
  intros [Hp _]%andb_true_iff. by destruct (notna (at_row r p.2)).
Qed.

Lemma identified_row_str_strip df r :
  identified_row (str_strip df) r = identified_row df r.
Proof.
  unfold identified_row, cell_at, str_strip. simpl.
  rewrite !list_lookup_fmap.
  by destruct (items df !! 0), (items df !! 1).
Qed.
End Loader.

(** ** The labels of a loaded table, and the portfolio's coercion loop *)

Section Columns.
Context `{ToNumeric}.
Implicit Types (df d t : DataFrame) (name col : string) (s : Series).

Lemma columns_setitem df name s :
  columns (setitem df name s) = with_label name (columns df).
Proof.
  unfold with_label. fold (has_column name df).
  destruct (has_column name df) eqn:Hc.
  - by apply columns_setitem_present.
  - by apply columns_setitem_absent.
Qed.

Lemma normalize_columns df t :
  Jason.normalize df = inr t →
  ∃ d0 d,
    Jason.drop_blank_rows (str_strip df) = inr d0
    ∧ Jason.rename_columns d0 = inr d
    ∧ columns t
      = with_label "預估年度手續費"
          (with_label "年度投入金額" (columns d)).
Proof.
  unfold Jason.normalize. intros Ht.
  apply bind_inr in Ht as (d0 & Hd0 & Ht).
  apply bind_inr in Ht as (d & Hd & Ht).
  apply bind_inr in Ht as (d1 & Hd1 & Ht).
  apply bind_inr in Ht as (d2 & Hd2 & Ht).
  apply bind_inr in Ht as (d3 & Hd3 & Ht).
  apply coerce_column_spec in Hd1 as (_ & Hc1 & _).
  apply coerce_column_spec in Hd2 as (_ & Hc2 & _).
  apply coerce_column_spec in Hd3 as (_ & Hc3 & _).
  apply add_derived_inr in Ht
    as (monthly & discount & annual & rate & fee & _ & _ & _ & _ & _ & _
        & ->).
  exists d0, d. split; [done|]. split; [done|].
  rewrite !columns_setitem. congruence.
Qed.

Lemma drop_blank_rows_total df :
  2 ≤ length (columns df) → ∃ d, Jason.drop_blank_rows df = inr d.
Proof.
  rewrite length_columns. intros Hn.
  unfold Jason.drop_blank_rows, iloc_col, dropna_all, select_rows.
  cbn [items]. rewrite !list_lookup_fmap.
  destruct (items df) as [|p0 [|p1 l]]; simpl in Hn; [lia..|].
  simpl. run. eauto.
Qed.

(** A table with more than five columns does not load. *)
Lemma normalize_wide df :
  5 < length (columns df) → Jason.normalize df = inl ValueError.
Proof.
  intros Hn. unfold Jason.normalize.
  destruct (drop_blank_rows_total (str_strip df)) as [d0 Hd0].
  { rewrite columns_str_strip, length_fmap. lia. }
  rewrite Hd0. run.
  rewrite rename_columns_wide; [done|].
  rewrite (drop_blank_rows_columns _ _ Hd0), columns_str_strip, length_fmap.
  done.
Qed.

(** *** The portfolio's loop over [numeric_columns] *)

Lemma portfolio_coerce_column_present col df s :
  labelled col df = [s] →
  Portfolio.coerce_column col df = inr (setitem df col (converted s)).
Proof.
  intros Hs. unfold Portfolio.coerce_column, getitem.
  by rewrite (labelled_present _ _ _ Hs), Hs.
Qed.

Lemma portfolio_coerce_column_spec col df d :
  Portfolio.coerce_column col df = inr d →
  index d = index df ∧ columns d = columns df
  ∧ (∀ other, other ≠ col → labelled other d = labelled other df)
  ∧ coerced_only col df d.
Proof.
  intros Hd. unfold Portfolio.coerce_column in Hd.
  destruct (has_column col df) eqn:Hc.
  - unfold getitem in Hd.
    destruct (labelled col df) as [|s [|s' ss]] eqn:Hs; run; try done.
    simpl in Hd. run. injection Hd as <-.
    split; [apply index_setitem|].
    split; [by apply columns_setitem_present|].
    split; [intros other Ho; by apply labelled_setitem_ne|].
    right. exists s. split; [done|].
    by rewrite labelled_setitem_eq, Hc, Hs.
  - injection Hd as <-. repeat split; try done.
    left. by apply labelled_nil in Hc.
Qed.

Lemma coerce_loop_failed (cols : list string) (e : exn) :
  foldl (λ acc col, df ← acc; Portfolio.coerce_column col df)
    (inl e) cols = inl e.
Proof. induction cols as [|c cols IH]; [done|]. exact IH. Qed.

Lemma coerce_loop_spec (cols : list string) df d :
  NoDup cols →
  foldl (λ acc col, df ← acc; Portfolio.coerce_column col df)
    (inr df) cols = inr d →
  index d = index df ∧ columns d = columns df
  ∧ (∀ other, other ∉ cols → labelled other d = labelled other df)
  ∧ (∀ col, col ∈ cols → coerced_only col df d).
Proof.
  intros Hnodup. revert df.
  induction Hnodup as [|c cols Hc Hnodup IH]; intros df Hd.
  - injection Hd as <-. repeat split; try done.
    intros col Hcol. by apply elem_of_nil in Hcol.
  - simpl in Hd. run.
    destruct (Portfolio.coerce_column c df) as [e|d1] eqn:Hd1.
    { by rewrite coerce_loop_failed in Hd. }
    apply portfolio_coerce_column_spec in Hd1 as (Hi1 & Hc1 & Ho1 & Hs1).
    destruct (IH _ Hd) as (Hi & Hcs & Ho & Hs).
    split; [congruence|]. split; [congruence|]. split.
    + intros other [Hne Hother]%not_elem_of_cons.
      rewrite Ho by done. by apply Ho1.
    + intros col [->|Hcol]%elem_of_cons.
      * unfold coerced_only in *. by rewrite (Ho c).
      * assert (col ≠ c) by (intros ->; done).
        specialize (Hs col Hcol). unfold coerced_only in *.
        by rewrite <- (Ho1 col).
Qed.

Lemma coerce_numeric_spec df d :
  Portfolio.coerce_numeric df = inr d →
  index d = index df ∧ columns d = columns df
  ∧ (∀ col, col ∈ Portfolio.numeric_columns → coerced_only col df d).
Proof.
  intros Hd. apply coerce_loop_spec in Hd as (Hi & Hc & _ & Hs).
  - done.
  - apply (bool_decide_unpack _). by vm_compute.
Qed.
End Columns.

(** ** The portfolio statistics are computed *)

Section PortfolioTotal.
Context `{ToNumeric} `{Summation}.
Implicit Types (df d : DataFrame) (col : string) (s : Series).

Lemma labelled_NoDup df col :
  NoDup (columns df) → labelled col df = [] ∨ ∃ s, labelled col df = [s].
Proof.
  unfold columns, labelled.
  induction (items df) as [|[c x] l IH]; [by left|].
  rewrite fmap_cons, filter_cons. simpl.
  intros [Hc Hl]%NoDup_cons. destruct (decide (c = col)) as [->|Hne].
  - right. exists x. apply filter_label_nil in Hc. by rewrite Hc.
  - by apply IH.
Qed.







End PortfolioTotal.

(** Look a literal key up in a dictionary built by insertions. *)
Ltac lookup_key :=
  rewrite ?lookup_insert;
  repeat first [ rewrite decide_True by reflexivity
               | rewrite decide_False by discriminate ];
  try reflexivity.

(** ** The order of the numbers *)

(** Turn [(b ?= a)] into the opposite of [(a ?= b)]. *)
Ltac flip_compare a b :=
  let E := fresh "E" in
  pose proof (Qcompare_antisym a b) as E; rewrite <- E; clear E.

Section Order.
Implicit Types (m x : number) (k : Z).



(** A number that is not a NaN is positive or at most zero. *)
Lemma ltb_or_leb_zero m :
  Num.is_nan m = false →
  Num.ltb (Int 0) m = true ∨ Num.leb m (Int 0) = true.
Proof.
  unfold Num.leb, Num.ltb. cbn [Num.value].
  intros Hm.
  assert (∃ l, Num.value m = Some l) as [l ->].
  { destruct m as [z|[s|s| |s p e]]; try done; by eexists. }
  destruct l as [|a|]; cbn [level_ltb level_leb]; auto.
  flip_compare a (inject_Z 0).
  destruct (a ?= inject_Z 0)%Q; cbn [CompOpp]; auto.
Qed.

(** At least a positive integer is more than zero. *)
Lemma leb_positive_ltb_zero k m :
  (0 < k)%Z → Num.leb (Int k) m = true → Num.ltb (Int 0) m = true.
Proof.
  intros Hk. unfold Num.leb, Num.ltb. cbn [Num.value].
  destruct (Num.value m) as [[|a|]|]; cbn [level_ltb level_leb]; try done.
  destruct (inject_Z k ?= a)%Q eqn:Hka; intros Hle; try done.
  - apply (proj2 (Qeq_alt _ _)) in Hka.
    assert (Hlt : (inject_Z 0 < a)%Q).
    { rewrite <- Hka. by rewrite <- Zlt_Qlt. }
    by rewrite (proj1 (Qlt_alt _ _) Hlt).
  - apply (proj2 (Qlt_alt _ _)) in Hka.
    assert (Hlt : (inject_Z 0 < a)%Q).
    { eapply Qlt_trans; [|exact Hka]. by rewrite <- Zlt_Qlt. }
    by rewrite (proj1 (Qlt_alt _ _) Hlt).
Qed.



(** Two integers in the range of [int64] differ exactly when their
    wrapped difference is not zero. *)
Lemma wrap_in_range (z : Z) :
  (- 2 ^ 63 <= z < 2 ^ 63)%Z → wrap z = z.
Proof.
  intros Hz. unfold wrap. rewrite Z.mod_small by lia. lia.
Qed.


End Order.

(** ** The sums the return rate is computed from *)

Section Sums.
Context `{ToNumeric} `{Summation}.
Implicit Types (df d : DataFrame) (col : string) (s : Series).



End Sums.

(** ** A missing cell in a sum *)

Section Missing.
Context `{Summation}.

(** Wherever it stands, a missing cell adds what a float zero adds. *)
Lemma sum_missing (s1 s2 : Series) :
  sum (s1 ++ NaN :: s2) = sum (s1 ++ Num fzero :: s2).
Proof.
  unfold sum, total.
  rewrite !existsb_app, !forallb_app, !fmap_app. simpl.
  by rewrite !andb_false_r.
Qed.
End Missing.

(** ** The conversion of a positive integer to a float *)

Section Conversion.
Local Open Scope Z_scope.

Lemma digits2_size (p : positive) : digits2_pos p = Pos.size p.
Proof. induction p as [p IH|p IH|]; simpl; by rewrite ?IH. Qed.

(** A positive number of [d] binary digits is at least [2 ^ (d - 1)]. *)
Lemma digits2_lower (p : positive) :
  2 ^ (Zpos (digits2_pos p) - 1) ≤ Zpos p.
Proof.
  rewrite digits2_size. pose proof (Pos.size_le p) as Hp.
  apply Pos2Z.pos_le_pos in Hp. rewrite Pos2Z.inj_pow in Hp.
  replace (Zpos (Pos.size p)) with (Zpos (Pos.size p) - 1 + 1) in Hp by lia.
  rewrite Z.pow_add_r in Hp by lia. lia.
Qed.

Lemma shr_1_m (mrs : shr_record) :
  0 ≤ shr_m mrs → shr_m (shr_1 mrs) = shr_m mrs / 2.
Proof.
  destruct mrs as [[|[p|p|]|p] r s]; simpl; intros Hm; try done.
  - rewrite Pos2Z.inj_xI. apply (Z.div_unique _ _ _ 1); lia.
  - rewrite Pos2Z.inj_xO. apply (Z.div_unique _ _ _ 0); lia.
Qed.

Lemma iter_shr_m (k : positive) (mrs : shr_record) :
  0 ≤ shr_m mrs →
  shr_m (SpecFloat.iter_pos shr_1 k mrs) = shr_m mrs / 2 ^ Zpos k.
Proof.
  revert mrs. induction k as [k IH|k IH|]; intros mrs Hm; simpl.
  - assert (H1 : 0 ≤ shr_m (shr_1 mrs)).
    { rewrite shr_1_m by done. by apply Z.div_pos. }
    assert (H2 : 0 ≤ shr_m (SpecFloat.iter_pos shr_1 k (shr_1 mrs))).
    { rewrite IH by done. apply Z.div_pos; [done|lia]. }
    rewrite IH, IH, shr_1_m by done.
    rewrite !Z.div_div by lia. f_equal.
    replace (Zpos k~1) with (Zpos k + Zpos k + 1) by lia.
    rewrite !Z.pow_add_r, Z.pow_1_r by lia. lia.
  - assert (H2 : 0 ≤ shr_m (SpecFloat.iter_pos shr_1 k mrs)).
    { rewrite IH by done. apply Z.div_pos; [done|lia]. }
    rewrite IH, IH by done.
    rewrite !Z.div_div by lia. f_equal.
    replace (Zpos k~0) with (Zpos k + Zpos k) by lia.
    rewrite Z.pow_add_r by lia. lia.
  - by apply shr_1_m.
Qed.

(** Rounding a positive mantissa above the subnormal range leaves a
    positive mantissa, at an exponent in the range. *)
Lemma shr_fexp_positive (q : positive) (e : Z) (l : location) :
  SpecFloat.emin prec emax < Zpos (digits2_pos q) + e →
  0 < shr_m (shr_fexp prec emax (Zpos q) e l).1
  ∧ SpecFloat.emin prec emax ≤ (shr_fexp prec emax (Zpos q) e l).2.
Proof.
  intros He. unfold shr_fexp, shr. cbn [Zdigits2].
  set (n := fexp prec emax (Zpos (digits2_pos q) + e) - e).
  assert (Hf : SpecFloat.emin prec emax
               ≤ fexp prec emax (Zpos (digits2_pos q) + e)).
  { unfold fexp. lia. }
  assert (Hn : n < Zpos (digits2_pos q)).
  { unfold n, fexp, SpecFloat.emin, prec, emax in *. lia. }
  assert (Hm : shr_m (shr_record_of_loc (Zpos q) l) = Zpos q).
  { by destruct l as [|[]]. }
  destruct n as [|k|k] eqn:Hk; cbn [fst snd].
  - rewrite Hm. split; [done|]. lia.
  - rewrite iter_shr_m by (rewrite Hm; lia). rewrite Hm. split; [|lia].
    apply Z.div_str_pos. split; [lia|].
    etransitivity; [|apply digits2_lower].
    apply Z.pow_le_mono_r; lia.
  - rewrite Hm. split; [done|]. lia.
Qed.

Lemma round_nearest_even_positive (m : Z) (l : location) :
  0 < m → 0 < round_nearest_even m l.
Proof.
  intros Hm. destruct l as [|[]]; simpl; try done; [|lia].
  destruct (Z.even m); lia.
Qed.

Lemma binary_round_aux_positive (q : positive) (e : Z) (l : location) :
  SpecFloat.emin prec emax < Zpos (digits2_pos q) + e →
  positive_float (binary_round_aux prec emax false (Zpos q) e l) = true.
Proof.
  intros He. unfold binary_round_aux.
  destruct (shr_fexp_positive q e l He) as [Hm He'].
  destruct (shr_fexp prec emax (Zpos q) e l) as [mrs' e'].
  cbn [fst snd] in Hm, He'.
  pose proof (round_nearest_even_positive _ (loc_of_shr_record mrs') Hm)
    as Hr.
  destruct (round_nearest_even (shr_m mrs') (loc_of_shr_record mrs'))
    as [|q'|q']; try done.
  destruct (shr_fexp_positive q' e' loc_Exact) as [Hm' _].
  { pose proof (Pos2Z.is_pos (digits2_pos q')). lia. }
  destruct (shr_fexp prec emax (Zpos q') e' loc_Exact) as [mrs'' e''].
  cbn [fst snd] in Hm'.
  destruct (shr_m mrs'') as [|m|m]; try done.
  by destruct (e'' <=? emax - prec).
Qed.

Lemma of_int_positive (p : positive) :
  positive_float (of_int (Zpos p)) = true.
Proof.
  unfold of_int, binary_normalize, binary_round, shl_align.
  set (d := Zpos (digits2_pos p)).
  destruct (fexp prec emax (d + 0) - 0) as [|k|k] eqn:Hk.
  - apply binary_round_aux_positive. fold d. unfold SpecFloat.emin.
    unfold d. pose proof (Pos2Z.is_pos (digits2_pos p)).
    unfold prec, emax. lia.
  - apply binary_round_aux_positive. fold d. unfold SpecFloat.emin.
    unfold d. pose proof (Pos2Z.is_pos (digits2_pos p)).
    unfold prec, emax. lia.
  - apply binary_round_aux_positive.
    assert (Hf : SpecFloat.emin prec emax ≤ fexp prec emax (d + 0)).
    { unfold fexp. lia. }
    pose proof (Pos2Z.is_pos (digits2_pos (Pos.iter xO p k))). lia.
Qed.
End Conversion.

(** A float with a positive sign is above zero. *)
Lemma positive_float_ltb (f : float) :
  positive_float f = true → Num.ltb (Int 0) (Float f) = true.
Proof.
  destruct f as [s|[]| |[] m e]; try done. intros _.
  unfold Num.ltb. cbn [Num.value level_ltb cond_Zopp].
  assert (Hpos : (inject_Z 0 < inject_Z (Zpos m) * 2 ^ e)%Q).
  { apply Qmult_lt_0_compat; [done|]. by apply Qpower_0_lt. }
  by rewrite (proj1 (Qlt_alt _ _) Hpos).
Qed.

(** The conversion of an integer to [float64] keeps a positive number
    positive. *)
Lemma float64_positive (m : number) :
  Num.ltb (Int 0) m = true → Num.ltb (Int 0) (Float (to_float m)) = true.
Proof.
  destruct m as [z|f]; [|done]. intros Hz.
  assert (∃ p, z = Zpos p) as [p ->].
  { unfold Num.ltb in Hz. cbn [Num.value level_ltb] in Hz.
    destruct (inject_Z 0 ?= inject_Z z)%Q eqn:Hc; try done.
    apply (proj2 (Qlt_alt _ _)) in Hc. rewrite <- Zlt_Qlt in Hc.
    destruct z; try done. by eexists. }
  apply positive_float_ltb, of_int_positive.
Qed.

(** A float that is not above zero by its sign is not above zero. *)
Lemma not_positive_float_ltb (f : float) :
  positive_float f = false → Num.ltb (Int 0) (Float f) = false.
Proof.
  destruct f as [s|[]| |[] m e]; try done. intros _.
  unfold Num.ltb. cbn [Num.value level_ltb cond_Zopp].
  change (- Zpos m)%Z with (Zneg m).
  destruct (inject_Z 0 ?= inject_Z (Zneg m) * 2 ^ e)%Q eqn:Hc; try done.
  apply (proj2 (Qlt_alt _ _)) in Hc. exfalso.
  assert (Hpos : (0 < inject_Z (Zpos m) * 2 ^ e)%Q).
  { apply Qmult_lt_0_compat; [done|]. by apply Qpower_0_lt. }
  assert (Hopp : (inject_Z (Zneg m) * 2 ^ e
                  == - (inject_Z (Zpos m) * 2 ^ e))%Q).
  { change (inject_Z (Zneg m)) with (- inject_Z (Zpos m))%Q. ring. }
  rewrite Hopp in Hc.
  apply (Qlt_irrefl 0). eapply Qlt_trans; [exact Hc|].
  apply (Qplus_lt_l _ _ (inject_Z (Zpos m) * 2 ^ e)).
  rewrite Qplus_0_l.
  setoid_replace (- (inject_Z (Z.pos m) * 2 ^ e)
                  + inject_Z (Z.pos m) * 2 ^ e)%Q
    with 0%Q using relation Qeq by ring.
  exact Hpos.
Qed.

Lemma binary_round_aux_negative (mx e : Z) (l : location) :
  positive_float (binary_round_aux prec emax true mx e l) = false.
Proof.
  unfold binary_round_aux.
  destruct (shr_fexp prec emax mx e l) as [mrs' e'].
  destruct (shr_fexp prec emax _ e' loc_Exact) as [mrs'' e''].
  destruct (shr_m mrs'') as [|m|m]; try done.
  by destruct (e'' <=? emax - prec)%Z.
Qed.

Lemma of_int_not_positive (z : Z) :
  (z ≤ 0)%Z → positive_float (of_int z) = false.
Proof.
  destruct z as [|p|p]; [done|lia|]. intros _.
  unfold of_int, binary_normalize, binary_round.
  destruct (shl_align p 0 _) as [mz ez].
  apply binary_round_aux_negative.
Qed.

(** The conversion of an integer to [float64] does not move it across
    zero: the test [> 0] gives the same on both. *)
Lemma ltb_to_float (m : number) :
  Num.ltb (Int 0) (Float (to_float m)) = Num.ltb (Int 0) m.
Proof.
  destruct (Num.ltb (Int 0) m) eqn:Hm; [by apply float64_positive|].
  destruct m as [z|f]; [|done].
  apply not_positive_float_ltb, of_int_not_positive.
  unfold Num.ltb in Hm. cbn [Num.value level_ltb] in Hm.
  destruct (Z_lt_le_dec 0 z) as [Hz|Hz]; [|done].
  rewrite (Zlt_Qlt 0 z) in Hz.
  by rewrite (proj1 (Qlt_alt _ _) Hz) in Hm.
Qed.

(** The test of line 238 on an element of a row. *)
Lemma gt_zero_in_row (T : Charts.dtype) (m : number) :
  Charts.gt (Int 0) (Charts.in_row T (Num m)) = inr (Num.ltb (Int 0) m).
Proof.
  destruct T; try done.
  destruct m as [z|f]; [|done].
  cbn [Charts.in_row float64 Charts.gt].
  by rewrite <- (ltb_to_float (Int z)).
Qed.

(** * The claims *)

(** C10. In the recurring-plan loader, a response that was fetched and
    parsed into a table with fewer than two columns makes the load return
    [None]: the row filter of line 99 indexes the columns at positions 0
    and 1, the [IndexError] leaves the [try] block, and it is the catch-all
    [except Exception] clause that takes it. *)
Theorem C10_fewer_than_two_columns `{ToNumeric}
    (status : nat) (df : DataFrame) :
  length (columns df) < 2 →
  Jason.raise_for_status (Jason.mkResponse status (inr df)) = inr tt →
  Jason.try_load (inr (Jason.mkResponse status (inr df))) = inl IndexError
  ∧ Jason.except IndexError = Jason.ExceptException
  ∧ Jason.load_investment_data (inr (Jason.mkResponse status (inr df)))
    = None.
Proof.
  intros Hn Hstatus.
  assert (Hload : Jason.try_load (inr (Jason.mkResponse status (inr df)))
                  = inl IndexError).
  { rewrite try_load_fetched by done. by apply normalize_narrow. }
  split; [exact Hload|]. split; [reflexivity|].
  unfold Jason.load_investment_data. by rewrite Hload.
Qed.

Lemma C10_fewer_than_two_columns_witness :
  Jason.try_load (Examples.ok Examples.narrow_sheet) = inl IndexError
  ∧ Jason.except IndexError = Jason.ExceptException
  ∧ Jason.load_investment_data (Examples.ok Examples.narrow_sheet) = None.
Proof.
  apply (C10_fewer_than_two_columns 200 Examples.narrow_sheet).
  - simpl. lia.
  - reflexivity.
Defined.

(** C7. Normalization drops exactly the rows that are entirely empty and
    the rows whose ticker or name (first two cells) is missing.  For a table
    as [read_csv] returns it (one cell per row in every column, rows
    labelled [0 .. n-1]), the rows of the loaded table are, in order, the
    rows of the parsed table that have both a ticker and a name; a row is
    gone exactly when it is blank or lacks one of the two; the row count of
    the result, and the count entry of the summary computed from it, count
    the surviving rows only. *)
Theorem C7_dropped_rows `{ToNumeric} `{Summation}
    (status : nat) (df t : DataFrame) :
  rectangular df → range_index df →
  Jason.load_investment_data (inr (Jason.mkResponse status (inr df)))
  = Some t →
  index t = filter (λ r, identified_row df r) (seq 0 (len df))
  ∧ (∀ r, r < len df →
       (r ∉ index t ↔ blank_row df r = true ∨ identified_row df r = false))
  ∧ len t = length (filter (λ r, identified_row df r) (seq 0 (len df)))
  ∧ (empty t = false →
       ∃ summary,
         Jason.calculate_investment_summary (Some t) = inr summary
         ∧ summary !! "總股票數"
           = Some (Scalar (Num (Int (Z.of_nat
               (length (filter (λ r, identified_row df r)
                          (seq 0 (len df))))))))).
Proof.
  intros Hrect Hidx Hload%load_investment_data_Some.
  destruct (normalize_inr _ _ Hload)
    as (d0 & d & Hd0 & Hd & Hindex & _ & _ & _ & (ms & ds & Hplan) & _).
  assert (Hrows : index t
                  = filter (λ r, identified_row df r) (seq 0 (len df))).
  { rewrite Hindex. destruct (rename_columns_inr _ _ Hd) as (-> & _ & _).
    rewrite (drop_blank_rows_index (str_strip df) d0); try done.
    - apply list_filter_iff. intros r.
      by rewrite identified_row_str_strip.
    - by apply rectangular_str_strip. }
  assert (Hlen : len t
                 = length (filter (λ r, identified_row df r)
                             (seq 0 (len df)))).
  { unfold len at 1. by rewrite Hrows. }
  split; [exact Hrows|]. split; [|split; [exact Hlen|]].
  - intros r Hr. rewrite Hrows, list_elem_of_filter, elem_of_seq.
    split.
    + intros Hnot. right.
      destruct (identified_row df r) eqn:Hid; [|done].
      exfalso. apply Hnot. split; [done|lia].
    + intros [Hblank%blank_not_identified|Hid] [Hin _];
        rewrite ?Hblank, ?Hid in Hin; done.
  - intros Hempty.
    destruct (summary_of_plan_table _ _ _ Hplan Hempty) as [fee ->].
    eexists. split; [reflexivity|].
    rewrite <- Hlen. lookup_key.
Qed.

Lemma C7_dropped_rows_witness :
  let df := Examples.plan_sheet in
  let t := Examples.plan_sheet_loaded in
  index t = filter (λ r, identified_row df r) (seq 0 (len df))
  ∧ (∀ r, r < len df →
       (r ∉ index t ↔ blank_row df r = true ∨ identified_row df r = false))
  ∧ len t = length (filter (λ r, identified_row df r) (seq 0 (len df)))
  ∧ (empty t = false →
       ∃ summary,
         Jason.calculate_investment_summary (Some t) = inr summary
         ∧ summary !! "總股票數"
           = Some (Scalar (Num (Int (Z.of_nat
               (length (filter (λ r, identified_row df r)
                          (seq 0 (len df))))))))).
Proof.
  intros df t. apply (C7_dropped_rows 200 df t).
  - repeat constructor.
  - reflexivity.
  - vm_compute. reflexivity.
Defined.

(** The sheet of the witness: of its four lines, the blank one, the one
    without a name and the one without a ticker go. *)
Example plan_sheet_kept :
  filter (λ r, identified_row Examples.plan_sheet r) (seq 0 4) = [0]
  ∧ blank_row Examples.plan_sheet 1 = true
  ∧ identified_row Examples.plan_sheet 2 = false
  ∧ identified_row Examples.plan_sheet 3 = false.
Proof. repeat split. Qed.

(** C6 (as the code has it). In every table the recurring-plan loader
    returns, the monthly amounts [ms] and the discount rates [ds] are
    numbers, one per row, and the monthly amounts are of one type: all
    [int64] or all [float64].  Row by row, the column 年度投入金額 holds
    [m * 12] and every column labelled 預估年度手續費 holds
    [d / 100 * (m * 12)], computed as numpy computes them: the product of
    an [int64] amount is taken modulo 2^64, so it is [12 m] as long as that
    fits in an [int64]; every other operation is a [float64] one. *)
Theorem C6_derived_fields `{ToNumeric}
    (status : nat) (df t : DataFrame) :
  rectangular df →
  Jason.load_investment_data (inr (Jason.mkResponse status (inr df)))
  = Some t →
  ∃ ms ds annual fee,
    labelled "每月投入金額" t = [Num <$> ms]
    ∧ labelled "券商折扣" t = [Num <$> ds]
    ∧ labelled "年度投入金額" t = [annual]
    ∧ Forall (eq fee) (labelled "預估年度手續費" t)
    ∧ labelled "預估年度手續費" t ≠ []
    ∧ length ms = len t ∧ length ds = len t
    ∧ uniform (Num <$> ms)
    ∧ ∀ r, r < len t →
        ∃ m d a,
          ms !! r = Some m ∧ ds !! r = Some d
          ∧ annual !! r = Some a
          ∧ a = lift Num.mul (Num m) (Num (Int 12))
          ∧ fee !! r
            = Some (lift Num.mul
                      (lift Num.div (Num d) (Num (Int 100))) a)
          ∧ (∀ z, m = Int z → a = Num (Int (wrap (z * 12))))
          ∧ (∀ z, m = Int z → (- 2 ^ 63 ≤ z * 12 < 2 ^ 63)%Z →
                  a = Num (Int (z * 12))).
Proof.
  intros Hrect Hload%load_investment_data_Some.
  destruct (normalize_inr _ _ Hload)
    as (_ & d & _ & _ & _ & Hmonth & _ & _ & (ms & ds & Hplan) & Ht).
  specialize (Ht Hrect).
  destruct Hplan as (Hms & Hds & Hannual & Hfee & Hne).
  assert (Hlms : length ms = len t).
  { rewrite <- (length_fmap Num).
    apply (rectangular_labelled t "每月投入金額"); [done|].
    rewrite Hms. by left. }
  assert (Hlds : length ds = len t).
  { rewrite <- (length_fmap Num).
    apply (rectangular_labelled t "券商折扣"); [done|].
    rewrite Hds. by left. }
  assert (Huni : uniform (Num <$> ms)).
  { destruct Hmonth as [[_ Hnil]|(s & _ & Hs)]; [congruence|].
    assert (Num <$> ms = filled s) as -> by congruence.
    apply filled_uniform. }
  exists ms, ds, (annual_amounts ms), (annual_fees ds ms).
  repeat (split; [done|]).
  intros r Hr.
  destruct (lookup_lt_is_Some_2 ms r) as [m Hm]; [lia|].
  destruct (lookup_lt_is_Some_2 ds r) as [d' Hd]; [lia|].
  exists m, d', (annual_amount m).
  split; [done|]. split; [done|].
  assert (Ha : annual_amounts ms !! r = Some (annual_amount m)).
  { unfold annual_amounts. by rewrite list_lookup_fmap, Hm. }
  split; [exact Ha|]. split; [reflexivity|]. split.
  { unfold annual_fees. by rewrite lookup_zip_with, Hd, Hm. }
  split.
  - by intros z ->.
  - intros z -> Hz. unfold annual_amount, of_number. simpl.
    by rewrite wrap_in_range.
Qed.

Lemma C6_derived_fields_witness :
  let t := Examples.one_plan_loaded in
  ∃ ms ds annual fee,
    labelled "每月投入金額" t = [Num <$> ms]
    ∧ labelled "券商折扣" t = [Num <$> ds]
    ∧ labelled "年度投入金額" t = [annual]
    ∧ Forall (eq fee) (labelled "預估年度手續費" t)
    ∧ labelled "預估年度手續費" t ≠ []
    ∧ length ms = len t ∧ length ds = len t
    ∧ uniform (Num <$> ms)
    ∧ ∀ r, r < len t →
        ∃ m d a,
          ms !! r = Some m ∧ ds !! r = Some d
          ∧ annual !! r = Some a
          ∧ a = lift Num.mul (Num m) (Num (Int 12))
          ∧ fee !! r
            = Some (lift Num.mul
                      (lift Num.div (Num d) (Num (Int 100))) a)
          ∧ (∀ z, m = Int z → a = Num (Int (wrap (z * 12))))
          ∧ (∀ z, m = Int z → (- 2 ^ 63 ≤ z * 12 < 2 ^ 63)%Z →
                  a = Num (Int (z * 12))).
Proof.
  intros t. apply (C6_derived_fields 200 Examples.one_plan t).
  - repeat constructor.
  - vm_compute. reflexivity.
Defined.

(** The claim as stated fails on an amount at the upper end of [int64]:
    the sheet loads, and its annual amount is -12, which is what
    110680464442257309684 = 12 × 9223372036854775807 is modulo 2^64; the
    fee is computed from that, -0.012. *)
Lemma C6_counterexample :
  Jason.load_investment_data (Examples.ok Examples.huge_amount)
  = Some Examples.huge_amount_loaded
  ∧ labelled "每月投入金額" Examples.huge_amount_loaded
    = [[Num (Int 9223372036854775807)]]
  ∧ labelled "年度投入金額" Examples.huge_amount_loaded
    = [[Num (Int (-12))]]
  ∧ (9223372036854775807 * 12 = 110680464442257309684)%Z
  ∧ wrap 110680464442257309684 = (-12)%Z
  ∧ labelled "預估年度手續費" Examples.huge_amount_loaded
    = [[Num (f64 (-12) 1000)]].
Proof. vm_compute. repeat split. Qed.

(** The example of the specification: 1000 a month at a rate of 0.1 gives
    12000 a year and a fee of 12.0, without a rounding error. *)
Example one_plan_derived :
  Jason.load_investment_data (Examples.ok Examples.one_plan)
  = Some Examples.one_plan_loaded
  ∧ labelled "每月投入金額" Examples.one_plan_loaded = [[Num (Int 1000)]]
  ∧ labelled "券商折扣" Examples.one_plan_loaded = [[Num (f64 1 10)]]
  ∧ labelled "年度投入金額" Examples.one_plan_loaded = [[Num (Int 12000)]]
  ∧ labelled "預估年度手續費" Examples.one_plan_loaded
    = [[Num (Float (of_int 12))]].
Proof. vm_compute. repeat split. Qed.



(** The example of the specification: rates 0.1 and 0.2 on 240000 a year.
    In [float64] the mean is 0.15000000000000002 and the savings are
    -18.00000000000008; they are below zero, and the summary keeps
    them. *)
Example two_plans_savings :
  Jason.load_investment_data (Examples.ok Examples.two_plans)
  = Some Examples.two_plans_loaded
  ∧ (summary ←
       Jason.calculate_investment_summary (Some Examples.two_plans_loaded);
     mret (entries summary))
    = inr Examples.two_plans_entries
  ∧ Examples.two_plans_entries !! 3
    = Some (Some (Scalar
                    (Num (f64 15000000000000002 100000000000000000))))
  ∧ Examples.two_plans_entries !! 5
    = Some (Some (Scalar (Num (f64 (-1800000000000008) 100000000000000))))
  ∧ Num.ltb (f64 (-1800000000000008) 100000000000000) (Int 0) = true.
Proof. repeat (split; [vm_compute; reflexivity|]). vm_compute. reflexivity. Qed.

(** C9 (as the code has it). Applied to an empty table, the summary
    function succeeds and returns the empty dictionary: it holds no count,
    no sum and no mean at all, rather than zero sums and an undefined
    mean. *)
Theorem C9_empty_table_summary `{Summation} (t : DataFrame) :
  empty t = true →
  Jason.calculate_investment_summary (Some t) = inr ∅
  ∧ ∀ key, (∅ : gmap string value) !! key = None.
Proof.
  intros Hempty. unfold Jason.calculate_investment_summary.
  rewrite Hempty. split; [reflexivity|]. intros key. apply lookup_empty.
Qed.

Lemma C9_empty_table_summary_witness :
  Jason.calculate_investment_summary (Some Examples.header_only_loaded)
  = inr ∅
  ∧ ∀ key, (∅ : gmap string value) !! key = None.
Proof. apply C9_empty_table_summary. reflexivity. Defined.

(** The claim as stated fails on a sheet that has a header and no line:
    the load succeeds with a table without rows, and its summary has no
    entry for the monthly total (the claim wants a zero there) and none for
    the mean. *)
Lemma C9_counterexample :
  Jason.load_investment_data (Examples.ok Examples.header_only)
  = Some Examples.header_only_loaded
  ∧ len Examples.header_only_loaded = 0
  ∧ (summary ←
       Jason.calculate_investment_summary (Some Examples.header_only_loaded);
     mret (summary !! "每月總投入", summary !! "平均券商折扣"))
    = inr (None, None).
Proof. repeat split. Qed.

(** The same holds for [df is None], the result of a failed load. *)
Example summary_of_failed_load :
  Jason.calculate_investment_summary None = inr ∅.
Proof. reflexivity. Qed.




(** The sample holdings, a zero denominator, and a table without the two
    columns. *)
Example return_rate_figures :
  Portfolio.overall Portfolio.create_sample_data
  = inr (Portfolio.mkStatistics
           (Num (Int 233850)) (Num (Int 15450)) (Num (f64 2575 364)) 5 1)
  ∧ Portfolio.return_rate (Num (Int 5000)) (Num (Int 5000)) = Num (Int 0)
  ∧ Portfolio.return_rate (Num (f64 3 10)) (Num (f64 3 10)) = Num (Int 0)
  ∧ Portfolio.overall Examples.names_only
    = inr (Portfolio.mkStatistics
             (Num (Int 0)) (Num (Int 0)) (Num (Int 0)) 0 0).
Proof. vm_compute. repeat split. Qed.

(** C2 (as the code has it). In the recurring-plan variant every failing
    fetch or parse makes the load return [None], never a table: when
    [requests.get] raises, when the status is a 4xx or 5xx code, and when
    [read_csv] raises on the body.  In the portfolio variant [load_data]
    answers every failure of [pd.read_csv] with the fixed sample table. *)
Theorem C2_failed_load `{ToNumeric} :
  (∀ e, Jason.load_investment_data (inl e) = None)
  ∧ (∀ status body,
       400 ≤ status < 600 →
       Jason.load_investment_data (inr (Jason.mkResponse status body)) = None)
  ∧ (∀ status e,
       Jason.load_investment_data (inr (Jason.mkResponse status (inl e)))
       = None)
  ∧ (∀ e, Portfolio.load_data (inl e) = Portfolio.create_sample_data).
Proof.
  split; [done|]. split; [|split; [|done]].
  - intros status body [Hlo Hhi].
    unfold Jason.load_investment_data, Jason.try_load, Jason.raise_for_status.
    run. cbn [Jason.status_code].
    apply Nat.leb_le in Hlo. apply Nat.ltb_lt in Hhi.
    by rewrite Hlo, Hhi.
  - intros status e.
    unfold Jason.load_investment_data, Jason.try_load. run.
    destruct (Jason.raise_for_status _) as [e'|[]]; by run.
Qed.

Lemma C2_failed_load_witness :
  Jason.load_investment_data (inl RequestException) = None
  ∧ Jason.load_investment_data
      (inr (Jason.mkResponse 404 (inr Examples.one_plan))) = None
  ∧ Jason.load_investment_data
      (inr (Jason.mkResponse 200 (inl EmptyDataError))) = None
  ∧ Portfolio.load_data (inl URLError) = Portfolio.create_sample_data.
Proof.
  destruct (C2_failed_load (H := decimal)) as (Hget & Hstatus & Hparse & Hurl).
  split; [apply Hget|]. split; [apply Hstatus; lia|].
  split; [apply Hparse|]. apply Hurl.
Defined.

(** The claim as stated fails in the portfolio variant: a failed fetch
    returns the six sample holdings in place of the real table. *)
Lemma C2_counterexample :
  Portfolio.load_data (inl URLError) = Portfolio.create_sample_data
  ∧ len Portfolio.create_sample_data = 6
  ∧ labelled "股票名稱" Portfolio.create_sample_data
    = [Str <$> ["台積電"; "鴻海"; "聯發科"; "大立光"; "中華電"; "廣達"]].
Proof. repeat split. Qed.

(** C3 (as the code has it). In the recurring-plan variant, a cell of a
    present numeric-designated column (每月投入金額, 扣款日, 券商折扣) that
    fails numeric coercion is exactly zero in the normalized table.  In the
    portfolio variant such a cell becomes missing ([NaN]), not zero, and the
    sums skip it: wherever it stands in a column, it adds what a zero
    adds.  In neither variant does the content of a cell make the coercion
    of a column fail. *)
Theorem C3_coercion_failures `{ToNumeric} `{Summation} :
  (∀ df t,
     Jason.normalize df = inr t →
     ∃ d0 d,
       Jason.drop_blank_rows (str_strip df) = inr d0
       ∧ Jason.rename_columns d0 = inr d
       ∧ ∀ name s,
           name ∈ plan_numeric_columns → labelled name d = [s] →
           ∃ s', labelled name t = [s'] ∧ length s' = length s
                 ∧ ∀ r x, s !! r = Some (Str x) → to_number x = None →
                          s' !! r = Some (Num fzero))
  ∧ (∀ name df s,
       labelled name df = [s] → ∃ d, Jason.coerce_column name df = inr d)
  ∧ (∀ df d,
       Portfolio.coerce_numeric df = inr d →
       ∀ col s,
         col ∈ Portfolio.numeric_columns → labelled col df = [s] →
         ∃ s', labelled col d = [s'] ∧ length s' = length s
               ∧ ∀ r x, s !! r = Some (Str x) → to_number x = None →
                        s' !! r = Some NaN)
  ∧ (∀ col df s,
       labelled col df = [s] → ∃ d, Portfolio.coerce_column col df = inr d)
  ∧ (∀ s1 s2, sum (s1 ++ NaN :: s2) = sum (s1 ++ Num fzero :: s2)).
Proof.
  split; [|split; [|split; [|split]]].
  - intros df t Ht.
    destruct (normalize_inr _ _ Ht)
      as (d0 & d & Hd0 & Hd & _ & Hmonth & Hday & Hdisc & _).
    exists d0, d. split; [done|]. split; [done|].
    intros name s Hname Hs.
    assert (Hfrom : coerced_from name d t).
    { unfold plan_numeric_columns in Hname.
      repeat (apply elem_of_cons in Hname as [->|Hname]; [done|]).
      by apply elem_of_nil in Hname. }
    destruct Hfrom as [[Hnil _]|(s0 & Hs0 & Ht0)]; [congruence|].
    assert (s0 = s) as -> by congruence.
    exists (filled s). split; [done|].
    split; [apply length_filled|].
    intros r x Hr Hx. by apply (filled_failure s r x).
  - intros name df s Hs. eexists. by apply coerce_column_present.
  - intros df d Hd col s Hcol Hs.
    destruct (coerce_numeric_spec _ _ Hd) as (_ & _ & Hall).
    destruct (Hall col Hcol) as [[Hnil _]|(s0 & Hs0 & Hd0)]; [congruence|].
    assert (s0 = s) as -> by congruence.
    exists (converted s). split; [done|].
    split; [apply length_converted|].
    intros r x Hr Hx. by apply (converted_failure s r x).
  - intros col df s Hs. eexists. by apply portfolio_coerce_column_present.
  - intros s1 s2. apply sum_missing.
Qed.

Lemma C3_coercion_failures_witness :
  (∃ s', labelled "每月投入金額" Examples.bad_amount_loaded = [s']
         ∧ length s' = 1
         ∧ ∀ r x, [Str "abc"] !! r = Some (Str x) → to_number x = None →
                  s' !! r = Some (Num fzero))
  ∧ (∃ d, Portfolio.coerce_numeric Examples.bad_holding = inr d
          ∧ ∃ s', labelled "市值" d = [s'] ∧ length s' = 2
                  ∧ ∀ r x, [Str "58000"; Str "abc"] !! r = Some (Str x) →
                           to_number x = None → s' !! r = Some NaN).
Proof.
  destruct (@C3_coercion_failures decimal sequential)
    as (Hplan & _ & Hportfolio & _ & _).
  split.
  - destruct (Hplan Examples.bad_amount Examples.bad_amount_loaded)
      as (d0 & d & Hd0 & Hd & Hcells); [vm_compute; reflexivity|].
    vm_compute in Hd0. injection Hd0 as <-.
    vm_compute in Hd. injection Hd as <-.
    apply (Hcells "每月投入金額" [Str "abc"]); [|reflexivity].
    apply (bool_decide_unpack _). vm_compute. exact I.
  - eexists. split; [reflexivity|].
    apply (Hportfolio Examples.bad_holding _ eq_refl "市值"
             [Str "58000"; Str "abc"]); [|reflexivity].
    apply (bool_decide_unpack _). vm_compute. exact I.
Defined.

(** The claim as stated fails in the portfolio variant: the market value
    "abc" does not read as a number and becomes [NaN], not zero (the sum of
    the column skips it). *)
Lemma C3_counterexample :
  labelled "市值" Examples.bad_holding = [[Str "58000"; Str "abc"]]
  ∧ to_number "abc" = None
  ∧ (d ← Portfolio.coerce_numeric Examples.bad_holding;
     mret (labelled "市值" d))
    = inr [[Num (Float (of_int 58000)); NaN]]
  ∧ (d ← Portfolio.coerce_numeric Examples.bad_holding;
     Portfolio.column_sum "市值" d)
    = inr (Num (Float (of_int 58000))).
Proof. repeat (split; [vm_compute; reflexivity|]). vm_compute. reflexivity. Qed.

(** In the recurring-plan variant the same kind of cell is zero. *)
Example bad_amount_is_zero :
  (t ← Jason.try_load (Examples.ok Examples.bad_amount);
   mret (labelled "每月投入金額" t))
  = inr [[Num fzero]].
Proof. vm_compute. reflexivity. Qed.

(** C1 (as the code has it). The recurring-plan loader renames by
    position only a table that has at least as many columns as the schema:
    a table with exactly the five schema columns gets all of them renamed to
    the canonical names, cells and row labels untouched; a table with fewer
    columns keeps its own headers, none is renamed; the coercion step skips
    a canonical column that is absent.  The portfolio variant renames
    nothing (headers are only trimmed, and the coercion keeps them), and an
    absent 市值 or 盈虧金額 column counts as zero in the totals and in the
    profit and loss counts. *)
Theorem C1_positional_rename `{ToNumeric} `{Summation} :
  (∀ df,
     length (columns df) = 5 →
     ∃ d, Jason.rename_columns df = inr d
          ∧ columns d = Jason.expected_columns
          ∧ (items d).*2 = (items df).*2 ∧ index d = index df)
  ∧ (∀ df, length (columns df) < 5 → Jason.rename_columns df = inr df)
  ∧ (∀ name df,
       has_column name df = false → Jason.coerce_column name df = inr df)
  ∧ (∀ df, columns (Portfolio.load_data (inr df)) = Text.strip <$> columns df)
  ∧ (∀ df st,
       Portfolio.overall df = inr st →
       (has_column "市值" df = false →
          Portfolio.total_market_value st = Num (Int 0))
       ∧ (has_column "盈虧金額" df = false →
            Portfolio.total_profit_loss st = Num (Int 0)
            ∧ Portfolio.profit_stocks st = 0
            ∧ Portfolio.loss_stocks st = 0)).
Proof.
  split; [|split; [|split; [|split]]].
  - intros df Hn. eexists. split; [by apply rename_columns_exact|].
    cbn [index items]. unfold columns at 1. cbn [items].
    assert (Hlen : length Jason.expected_columns ≤ length (items df).*2).
    { rewrite length_fmap, <- length_columns, Hn. done. }
    split; [by apply fst_zip|]. split; [|done].
    apply snd_zip. rewrite length_fmap, <- length_columns, Hn. done.
  - apply rename_columns_narrow.
  - apply coerce_column_absent.
  - intros df. apply columns_str_strip.
  - intros df st Hst. unfold Portfolio.overall in Hst.
    apply bind_inr in Hst as (d & Hd & Hst).
    apply bind_inr in Hst as (mv & Hmv & Hst).
    apply bind_inr in Hst as (pl & Hpl & Hst).
    apply bind_inr in Hst as (profit & Hprofit & Hst).
    apply bind_inr in Hst as (loss & Hloss & Hst).
    run. injection Hst as <-. simpl.
    apply coerce_numeric_spec in Hd as (_ & Hcols & _).
    unfold Portfolio.column_sum, Portfolio.count_rows, has_column in *.
    rewrite Hcols in *. split.
    + intros Hc. rewrite Hc in Hmv. run. congruence.
    + intros Hc. rewrite Hc in Hpl, Hprofit, Hloss. run.
      repeat split; congruence.
Qed.

Lemma C1_positional_rename_witness :
  let none :=
    Portfolio.mkStatistics (Num (Int 0)) (Num (Int 0)) (Num (Int 0)) 0 0 in
  (∃ d, Jason.rename_columns Examples.plan_sheet = inr d
        ∧ columns d = Jason.expected_columns
        ∧ (items d).*2 = (items Examples.plan_sheet).*2
        ∧ index d = index Examples.plan_sheet)
  ∧ Jason.rename_columns Examples.short_sheet = inr Examples.short_sheet
  ∧ Jason.coerce_column "扣款日" Examples.short_sheet
    = inr Examples.short_sheet
  ∧ (Portfolio.total_market_value none = Num (Int 0)
     ∧ Portfolio.total_profit_loss none = Num (Int 0)
     ∧ Portfolio.profit_stocks none = 0
     ∧ Portfolio.loss_stocks none = 0).
Proof.
  intros none.
  destruct (@C1_positional_rename decimal sequential)
    as (Hexact & Hnarrow & Hskip & _ & Habsent).
  split; [by apply Hexact|].
  split; [apply Hnarrow; simpl; lia|].
  split; [by apply Hskip|].
  destruct (Habsent Examples.names_only none) as (Hmv & Hpl);
    [vm_compute; reflexivity|].
  split; [by apply Hmv|]. by apply Hpl.
Defined.

(** The claim as stated fails on a sheet of three columns: none of its
    headers is renamed (the claim wants the first three canonical names),
    and the load does not treat the missing columns as zero, it fails on
    the first derived column.  It also fails on a sheet of six columns,
    which is not loaded at all. *)
Lemma C1_counterexample :
  columns Examples.short_sheet = ["代號"; "名稱"; "金額"]
  ∧ take 3 Jason.expected_columns = ["股票代號"; "股票名稱"; "每月投入金額"]
  ∧ Jason.rename_columns Examples.short_sheet = inr Examples.short_sheet
  ∧ Jason.try_load (Examples.ok Examples.short_sheet) = inl KeyError
  ∧ Jason.load_investment_data (Examples.ok Examples.short_sheet) = None
  ∧ Jason.try_load (Examples.ok Examples.wide_sheet) = inl ValueError
  ∧ Jason.load_investment_data (Examples.ok Examples.wide_sheet) = None.
Proof. repeat (split; [vm_compute; reflexivity|]). vm_compute. reflexivity. Qed.

(** C8. Normalization is not idempotent on the code: a sheet with the five
    schema columns loads into a table of seven columns (the five canonical
    ones and the two derived ones), and any table carrying these seven
    labels, such as the re-serialized result parsed again, is refused:
    line 104 assigns the five canonical names to seven columns, pandas
    raises [ValueError], and the load returns [None] instead of the first
    table. *)
Theorem C8_reload_of_result `{ToNumeric}
    (status status' : nat) (df t df' : DataFrame) :
  length (columns df) = 5 →
  Jason.load_investment_data (inr (Jason.mkResponse status (inr df)))
  = Some t →
  columns df' = columns t →
  columns t
  = Jason.expected_columns ++ ["年度投入金額"; "預估年度手續費"]
  ∧ Jason.normalize df' = inl ValueError
  ∧ Jason.load_investment_data (inr (Jason.mkResponse status' (inr df')))
    = None.
Proof.
  intros Hn Hload%load_investment_data_Some Hsame.
  destruct (normalize_columns _ _ Hload) as (d0 & d & Hd0 & Hd & Hcols).
  assert (Hd5 : length (columns d0) = 5).
  { by rewrite (drop_blank_rows_columns _ _ Hd0), columns_str_strip,
      length_fmap. }
  rewrite rename_columns_exact in Hd by done.
  assert (Hexp : columns d = Jason.expected_columns).
  { assert (d = mkDF (index d0) (zip Jason.expected_columns (items d0).*2))
      as -> by congruence.
    unfold columns. cbn [items]. apply fst_zip.
    rewrite length_fmap, <- length_columns, Hd5. done. }
  rewrite Hexp in Hcols.
  assert (Ht : columns t
               = Jason.expected_columns
                 ++ ["年度投入金額"; "預估年度手續費"]).
  { rewrite Hcols. reflexivity. }
  assert (Hwide : Jason.normalize df' = inl ValueError).
  { apply normalize_wide. rewrite Hsame, Ht. simpl. lia. }
  split; [exact Ht|]. split; [exact Hwide|].
  unfold Jason.load_investment_data, Jason.try_load. run.
  destruct (Jason.raise_for_status _) as [e|[]]; run; [done|].
  simpl. by rewrite Hwide.
Qed.

Lemma C8_reload_of_result_witness :
  columns Examples.one_plan_loaded
  = Jason.expected_columns ++ ["年度投入金額"; "預估年度手續費"]
  ∧ Jason.normalize Examples.one_plan_loaded = inl ValueError
  ∧ Jason.load_investment_data (Examples.ok Examples.one_plan_loaded)
    = None.
Proof.
  apply (C8_reload_of_result 200 200 Examples.one_plan
           Examples.one_plan_loaded Examples.one_plan_loaded).
  - reflexivity.
  - vm_compute. reflexivity.
  - reflexivity.
Defined.

(** * Further properties of the code *)

(** ** Shared facts about loaded tables *)

Section Loaded.
Context `{ToNumeric}.
Implicit Types (df t : DataFrame) (status : nat) (ms ds : list number).

Lemma load_investment_data_ok status df :
  status < 400 ∨ 600 ≤ status →
  Jason.load_investment_data (inr (Jason.mkResponse status (inr df)))
  = match Jason.normalize df with
    | inr t => Some t
    | inl _ => None
    end.
Proof.
  intros Hstatus.
  unfold Jason.load_investment_data, Jason.try_load, Jason.raise_for_status.
  run. cbn [Jason.status_code Jason.read_csv].
  assert ((400 <=? status) && (status <? 600) = false) as ->.
  { apply andb_false_iff. destruct Hstatus.
    - left. apply Nat.leb_gt. lia.
    - right. apply Nat.ltb_ge. lia. }
  run. by destruct (Jason.normalize df).
Qed.

Lemma load_investment_data_failed status df e :
  Jason.normalize df = inl e →
  Jason.load_investment_data (inr (Jason.mkResponse status (inr df))) = None.
Proof.
  intros Hn.
  destruct (Jason.load_investment_data _) as [t|] eqn:Hload; [|done].
  apply load_investment_data_Some in Hload. congruence.
Qed.

Lemma loaded_plan_table status df t :
  Jason.load_investment_data (inr (Jason.mkResponse status (inr df)))
  = Some t →
  ∃ ms ds, plan_table t ms ds.
Proof.
  intros Hload%load_investment_data_Some.
  destruct (normalize_inr _ _ Hload)
    as (_ & _ & _ & _ & _ & _ & _ & _ & Hplan & _). exact Hplan.
Qed.

Lemma loaded_rectangular status df t :
  rectangular df →
  Jason.load_investment_data (inr (Jason.mkResponse status (inr df)))
  = Some t →
  rectangular t.
Proof.
  intros Hrect Hload%load_investment_data_Some.
  destruct (normalize_inr _ _ Hload)
    as (_ & _ & _ & _ & _ & _ & _ & _ & _ & Ht). by apply Ht.
Qed.

Lemma plan_table_lengths t ms ds :
  rectangular t → plan_table t ms ds →
  length ms = len t ∧ length ds = len t.
Proof.
  intros Ht (Hms & Hds & _). split.
  - rewrite <- (length_fmap Num).
    apply (rectangular_labelled t "每月投入金額"); [done|].
    rewrite Hms. by left.
  - rewrite <- (length_fmap Num).
    apply (rectangular_labelled t "券商折扣"); [done|].
    rewrite Hds. by left.
Qed.
End Loaded.

(** X1. A sheet with more than five columns is never loaded: the rename of
    line 104 assigns the five canonical names to all its columns, pandas
    raises [ValueError], and the load returns [None] whatever the status
    and the cells. *)
Theorem X1_more_than_five_columns `{ToNumeric}
    (status : nat) (df : DataFrame) :
  5 < length (columns df) →
  Jason.normalize df = inl ValueError
  ∧ Jason.except ValueError = Jason.ExceptException
  ∧ Jason.load_investment_data (inr (Jason.mkResponse status (inr df)))
    = None.
Proof.
  intros Hn. pose proof (normalize_wide df Hn) as Hwide.
  split; [exact Hwide|]. split; [reflexivity|].
  by eapply load_investment_data_failed.
Qed.

Lemma X1_more_than_five_columns_witness :
  Jason.normalize Examples.wide_sheet = inl ValueError
  ∧ Jason.except ValueError = Jason.ExceptException
  ∧ Jason.load_investment_data (Examples.ok Examples.wide_sheet) = None.
Proof.
  apply (X1_more_than_five_columns 200 Examples.wide_sheet). simpl. lia.
Defined.

(** X2. A sheet with fewer than five columns is not renamed, so it loads
    only if its own trimmed headers name the columns the derived fields are
    computed from: when 每月投入金額 or 券商折扣 is not among them, the load
    returns [None]. *)
Theorem X2_missing_column `{ToNumeric}
    (status : nat) (df : DataFrame) :
  length (columns df) < 5 →
  "每月投入金額" ∉ Text.strip <$> columns df
  ∨ "券商折扣" ∉ Text.strip <$> columns df →
  Jason.load_investment_data (inr (Jason.mkResponse status (inr df)))
  = None.
Proof.
  intros Hn Hmissing.
  destruct (Jason.load_investment_data _) as [t|] eqn:Hload; [|done].
  exfalso. apply load_investment_data_Some in Hload.
  destruct (normalize_inr _ _ Hload)
    as (d0 & d & Hd0 & Hd & _ & Hmonth & _ & Hdisc & (ms & ds & Hplan) & _).
  assert (Hcols : columns d = Text.strip <$> columns df).
  { rewrite rename_columns_narrow in Hd.
    - injection Hd as <-.
      by rewrite (drop_blank_rows_columns _ _ Hd0), columns_str_strip.
    - by rewrite (drop_blank_rows_columns _ _ Hd0), columns_str_strip,
        length_fmap. }
  destruct Hplan as (Hms & Hds & _).
  assert (Hpresent : ∀ name s,
            coerced_from name d t → labelled name t = [s] →
            name ∈ Text.strip <$> columns df).
  { intros name s [[_ Hnil]|(s0 & Hs0 & _)] Hs; [congruence|].
    rewrite <- Hcols. by apply has_column_true, (labelled_present _ _ s0). }
  destruct Hmissing as [Hno|Hno]; apply Hno.
  - by apply (Hpresent _ _ Hmonth Hms).
  - by apply (Hpresent _ _ Hdisc Hds).
Qed.

Lemma X2_missing_column_witness :
  Jason.load_investment_data (Examples.ok Examples.short_sheet) = None.
Proof.
  apply (X2_missing_column 200 Examples.short_sheet).
  - simpl. lia.
  - left. apply (bool_decide_unpack _). vm_compute. exact I.
Defined.

(** ** Sheets with exactly five columns *)

Section FiveColumns.
Context `{ToNumeric}.

(** The coercions and the derived columns on a frame that carries the five
    canonical labels. *)
Lemma normalize_renamed (i : list nat) (a b c e f : Series) :
  ∃ ms ds,
    filled c = Num <$> ms ∧ filled f = Num <$> ds
    ∧ (d ← Jason.coerce_column "每月投入金額"
             (mkDF i (zip Jason.expected_columns [a; b; c; e; f]));
       d ← Jason.coerce_column "扣款日" d;
       d ← Jason.coerce_column "券商折扣" d;
       Jason.add_derived d)
      = inr (mkDF i [("股票代號", a); ("股票名稱", b);
                     ("每月投入金額", Num <$> ms);
                     ("扣款日", filled e);
                     ("券商折扣", Num <$> ds);
                     ("年度投入金額", annual_amounts ms);
                     ("預估年度手續費", annual_fees ds ms)]).
Proof.
  destruct (proj1 (numeric_fmap _) (filled_numeric c)) as [ms Hms].
  destruct (proj1 (numeric_fmap _) (filled_numeric f)) as [ds Hds].
  exists ms, ds. split; [done|]. split; [done|].
  rewrite (coerce_column_present _ _ c) by reflexivity. run.
  rewrite (coerce_column_present _ _ e) by reflexivity. run.
  rewrite (coerce_column_present _ _ f) by reflexivity. run.
  rewrite Hms, Hds.
  unfold Jason.add_derived.
  change (getitem _ "每月投入金額" ≫= as_series) with
    (@inr exn Series (Num <$> ms)).
  run. rewrite mul_scalar_Num. run.
  change (Py.bind (getitem _ "券商折扣") as_series) with
    (@inr exn Series (Num <$> ds)).
  run. rewrite div_scalar_Num. run.
  change (Py.bind (getitem _ "年度投入金額") as_series) with
    (@inr exn Series ((λ n, of_number (Num.mul n (Int 12))) <$> ms)).
  run. rewrite mul_series_textless.
  2:{ apply Forall_fmap, Forall_true. intros n. apply of_number_not_text. }
  2:{ apply Forall_fmap, Forall_true. intros n. apply of_number_not_text. }
  run. rewrite zip_with_fmap_l, zip_with_fmap_r. reflexivity.
Qed.

(** A sheet with five columns always normalizes, to a table with seven
    columns. *)
Lemma normalize_five_columns (df : DataFrame) :
  length (columns df) = 5 →
  ∃ d0 a b c e f ms ds,
    Jason.drop_blank_rows (str_strip df) = inr d0
    ∧ (items d0).*2 = [a; b; c; e; f]
    ∧ filled c = Num <$> ms ∧ filled f = Num <$> ds
    ∧ Jason.normalize df
      = inr (mkDF (index d0)
               [("股票代號", a); ("股票名稱", b);
                ("每月投入金額", Num <$> ms);
                ("扣款日", filled e);
                ("券商折扣", Num <$> ds);
                ("年度投入金額", annual_amounts ms);
                ("預估年度手續費", annual_fees ds ms)]).
Proof.
  intros Hn. unfold Jason.normalize.
  destruct (drop_blank_rows_total (str_strip df)) as [d0 Hd0].
  { rewrite columns_str_strip, length_fmap. lia. }
  rewrite Hd0. run.
  assert (Hn0 : length (columns d0) = 5).
  { by rewrite (drop_blank_rows_columns _ _ Hd0), columns_str_strip,
      length_fmap. }
  rewrite rename_columns_exact by done. run.
  assert (Hdata : length (items d0).*2 = 5).
  { by rewrite length_fmap, <- length_columns. }
  destruct ((items d0).*2) as [|a [|b [|c [|e [|f [|g data]]]]]] eqn:Hitems;
    try discriminate Hdata.
  destruct (normalize_renamed (index d0) a b c e f)
    as (ms & ds & Hms & Hds & Ht).
  run. exists d0, a, b, c, e, f, ms, ds. rewrite Ht. repeat split; done.
Qed.
End FiveColumns.

(** X3. A response with a status outside 400..599 whose body parses into a
    sheet with exactly five columns always loads, whatever its headers and
    cells are: the five columns take the canonical names, and the loaded
    table has these five columns followed by 年度投入金額 and
    預估年度手續費.  The amounts and the discounts are numbers, each column
    of one type, and the two derived columns are what lines 117-118 make
    of them in machine arithmetic: they hold no text. *)
Theorem X3_five_columns_load `{ToNumeric} (status : nat) (df : DataFrame) :
  status < 400 ∨ 600 ≤ status →
  length (columns df) = 5 →
  ∃ t ms ds,
    Jason.load_investment_data (inr (Jason.mkResponse status (inr df)))
    = Some t
    ∧ columns t
      = Jason.expected_columns ++ ["年度投入金額"; "預估年度手續費"]
    ∧ labelled "每月投入金額" t = [Num <$> ms]
    ∧ labelled "券商折扣" t = [Num <$> ds]
    ∧ uniform (Num <$> ms) ∧ uniform (Num <$> ds)
    ∧ labelled "年度投入金額" t
      = [(λ m, lift Num.mul (Num m) (Num (Int 12))) <$> ms]
    ∧ labelled "預估年度手續費" t
      = [zip_with
           (λ d m, lift Num.mul (lift Num.div (Num d) (Num (Int 100)))
                     (lift Num.mul (Num m) (Num (Int 12))))
           ds ms]
    ∧ (∀ name s,
         name ∈ ["年度投入金額"; "預估年度手續費"] →
         s ∈ labelled name t → textless s).
Proof.
  intros Hstatus Hn. rewrite load_investment_data_ok by done.
  destruct (normalize_five_columns df Hn)
    as (d0 & a & b & c & e & f & ms & ds & _ & _ & Hms & Hds & ->).
  eexists; exists ms, ds. split; [reflexivity|].
  split; [done|]. split; [done|]. split; [done|].
  split; [rewrite <- Hms; apply filled_uniform|].
  split; [rewrite <- Hds; apply filled_uniform|].
  split; [done|]. split; [done|].
  intros name s Hname Hs.
  repeat (apply elem_of_cons in Hname as [->|Hname]);
    [| |by apply elem_of_nil in Hname].
  - apply list_elem_of_singleton in Hs as ->.
    apply annual_amounts_textless.
  - apply list_elem_of_singleton in Hs as ->.
    apply annual_fees_textless.
Qed.

Lemma X3_five_columns_load_witness :
  ∃ t ms ds,
    Jason.load_investment_data (Examples.ok Examples.plan_sheet) = Some t
    ∧ columns t
      = Jason.expected_columns ++ ["年度投入金額"; "預估年度手續費"]
    ∧ labelled "每月投入金額" t = [Num <$> ms]
    ∧ labelled "券商折扣" t = [Num <$> ds]
    ∧ uniform (Num <$> ms) ∧ uniform (Num <$> ds)
    ∧ labelled "年度投入金額" t
      = [(λ m, lift Num.mul (Num m) (Num (Int 12))) <$> ms]
    ∧ labelled "預估年度手續費" t
      = [zip_with
           (λ d m, lift Num.mul (lift Num.div (Num d) (Num (Int 100)))
                     (lift Num.mul (Num m) (Num (Int 12))))
           ds ms]
    ∧ (∀ name s,
         name ∈ ["年度投入金額"; "預估年度手續費"] →
         s ∈ labelled name t → textless s).
Proof.
  apply (X3_five_columns_load 200 Examples.plan_sheet).
  - left. lia.
  - reflexivity.
Defined.

(** The reach of the machine arithmetic: an amount at the upper end of
    [int64] loads with a negative annual amount. *)
Example huge_amount_load :
  Jason.load_investment_data (Examples.ok Examples.huge_amount)
  = Some Examples.huge_amount_loaded
  ∧ labelled "年度投入金額" Examples.huge_amount_loaded
    = [[Num (Int (-12))]].
Proof. split; vm_compute; reflexivity. Qed.

(** ** What every loaded table satisfies *)

Lemma mask_filter_sublist {A} (mask : list bool) (l : list A) :
  mask_filter mask l `sublist_of` l.
Proof.
  revert mask. induction l as [|x l IH]; intros [|[] mask]; simpl;
    try constructor; auto using sublist_nil_l.
Qed.

(** X4. The table the recurring-plan loader returns keeps the row labels
    of the parsed sheet in their order and adds none (rows are only ever
    dropped); its columns 每月投入金額, 扣款日 and 券商折扣 hold numbers
    only, neither text nor missing cells, and each is of one type, all
    [int64] or all [float64]; its columns 年度投入金額 and 預估年度手續費
    hold no text; and it has one cell per row in every column when the
    sheet has. *)
Theorem X4_loaded_table_invariants `{ToNumeric}
    (status : nat) (df t : DataFrame) :
  Jason.load_investment_data (inr (Jason.mkResponse status (inr df)))
  = Some t →
  index t `sublist_of` index df
  ∧ (∀ name s,
       name ∈ ["每月投入金額"; "扣款日"; "券商折扣"] →
       s ∈ labelled name t → numeric s ∧ uniform s)
  ∧ (∀ name s,
       name ∈ ["年度投入金額"; "預估年度手續費"] →
       s ∈ labelled name t → textless s)
  ∧ (rectangular df → rectangular t).
Proof.
  intros Hload%load_investment_data_Some.
  destruct (normalize_inr _ _ Hload)
    as (d0 & d & Hd0 & Hd & Hindex & Hmonth & Hday & Hdisc
        & (ms & ds & Hplan) & Ht).
  split; [|split; [|split; [|exact Ht]]].
  - rewrite Hindex.
    apply rename_columns_inr in Hd as (-> & _).
    apply drop_blank_rows_inr in Hd0 as [mask ->].
    unfold dropna_all, select_rows, str_strip. cbn [index].
    etransitivity; apply mask_filter_sublist.
  - assert (Hcoerced : ∀ name s,
              coerced_from name d t → s ∈ labelled name t →
              numeric s ∧ uniform s).
    { intros name s [[_ Hnil]|(s0 & _ & Hs0)].
      { rewrite Hnil. by intros ?%elem_of_nil. }
      rewrite Hs0. intros ->%list_elem_of_singleton.
      split; [apply filled_numeric | apply filled_uniform]. }
    intros name s Hname Hs.
    repeat (apply elem_of_cons in Hname as [->|Hname]);
      [exact (Hcoerced _ s Hmonth Hs) | exact (Hcoerced _ s Hday Hs)
      | exact (Hcoerced _ s Hdisc Hs) | by apply elem_of_nil in Hname].
  - destruct Hplan as (Hms & Hds & Hannual & Hfee & _).
    intros name s Hname Hs.
    repeat (apply elem_of_cons in Hname as [->|Hname]);
      [| |by apply elem_of_nil in Hname].
    + rewrite Hannual in Hs. apply list_elem_of_singleton in Hs as ->.
      apply annual_amounts_textless.
    + pose proof (proj1 (Forall_forall _ _) Hfee _ Hs) as <-.
      apply annual_fees_textless.
Qed.

Lemma X4_loaded_table_invariants_witness :
  index Examples.two_plans_loaded `sublist_of` index Examples.two_plans
  ∧ (∀ name s,
       name ∈ ["每月投入金額"; "扣款日"; "券商折扣"] →
       s ∈ labelled name Examples.two_plans_loaded → numeric s ∧ uniform s)
  ∧ (∀ name s,
       name ∈ ["年度投入金額"; "預估年度手續費"] →
       s ∈ labelled name Examples.two_plans_loaded → textless s)
  ∧ (rectangular Examples.two_plans → rectangular Examples.two_plans_loaded).
Proof.
  apply (X4_loaded_table_invariants 200 Examples.two_plans).
  vm_compute. reflexivity.
Defined.

(** ** The summary of a loaded table *)

Lemma summary_of_loaded `{ToNumeric} `{Summation}
    (status : nat) (df t : DataFrame) :
  Jason.load_investment_data (inr (Jason.mkResponse status (inr df)))
  = Some t →
  empty t = false →
  ∃ ms ds fee,
    plan_table t ms ds
    ∧ Jason.calculate_investment_summary (Some t)
      = inr (<["手續費節省" :=
                 Scalar (fee_savings (average (Num <$> ds))
                           (total (annual_amounts ms)))]>
             (<["總預估手續費" := fee]>
              (<["平均券商折扣" := Scalar (average (Num <$> ds))]>
               (<["年度總投入" := Scalar (total (annual_amounts ms))]>
                (<["每月總投入" := Scalar (total (Num <$> ms))]>
                 (<["總股票數" := Scalar (Num (Int (Z.of_nat (len t))))]>
                  ∅)))))).
Proof.
  intros Hload Hempty.
  destruct (loaded_plan_table _ _ _ Hload) as (ms & ds & Hplan).
  destruct (summary_of_plan_table _ _ _ Hplan Hempty) as [fee Hsum].
  by exists ms, ds, fee.
Qed.

(** X5. The summary of a loaded table with at least one row is a
    dictionary with exactly the six keys the page reads (總股票數,
    每月總投入, 年度總投入, 平均券商折扣, 總預估手續費, 手續費節省); the
    function raises nothing on such a table, and 總股票數 is its number of
    rows. *)
Theorem X5_summary_keys `{ToNumeric} `{Summation}
    (status : nat) (df t : DataFrame) :
  Jason.load_investment_data (inr (Jason.mkResponse status (inr df)))
  = Some t →
  empty t = false →
  ∃ summary,
    Jason.calculate_investment_summary (Some t) = inr summary
    ∧ dom summary
      = ({["總股票數"; "每月總投入"; "年度總投入"; "平均券商折扣";
           "總預估手續費"; "手續費節省"]} : gset string)
    ∧ summary !! "總股票數" = Some (Scalar (Num (Int (Z.of_nat (len t))))).
Proof.
  intros Hload Hempty.
  destruct (summary_of_loaded _ _ _ Hload Hempty)
    as (ms & ds & fee & _ & Hsum).
  eexists. split; [exact Hsum|]. split.
  - rewrite !dom_insert_L, dom_empty_L. set_solver.
  - lookup_key.
Qed.

Lemma X5_summary_keys_witness :
  ∃ summary,
    Jason.calculate_investment_summary (Some Examples.two_plans_loaded)
    = inr summary
    ∧ dom summary
      = ({["總股票數"; "每月總投入"; "年度總投入"; "平均券商折扣";
           "總預估手續費"; "手續費節省"]} : gset string)
    ∧ summary !! "總股票數"
      = Some (Scalar
                (Num (Int (Z.of_nat (len Examples.two_plans_loaded))))).
Proof.
  apply (X5_summary_keys 200 Examples.two_plans Examples.two_plans_loaded).
  - vm_compute. reflexivity.
  - reflexivity.
Defined.

(** ** The charts and the table filter *)

Section Masks.
Implicit Types (t df : DataFrame) (mask : list bool) (ns : list number).

Lemma mask_filter_map {A B} (f : A → B) mask (l : list A) :
  mask_filter mask (f <$> l) = f <$> mask_filter mask l.
Proof.
  revert mask. induction l as [|x l IH]; intros [|[] mask]; simpl;
    try done; by rewrite <- IH.
Qed.

Lemma labelled_select_rows mask name df :
  labelled name (select_rows mask df) = mask_filter mask <$> labelled name df.
Proof.
  unfold labelled, select_rows. cbn [items].
  induction (items df) as [|[c s] l IH]; [done|].
  rewrite fmap_cons, !filter_cons. cbn [fst snd].
  destruct (decide (c = name)); by rewrite ?fmap_cons, IH.
Qed.

Lemma mask_column_one df name (s : Series) :
  labelled name df = [s] → Charts.mask_column df name = inr s.
Proof.
  intros Hs. unfold Charts.mask_column.
  by rewrite (getitem_labelled_one _ _ _ Hs).
Qed.

Lemma rows_gt_Num (k : number) name t ns :
  labelled name t = [Num <$> ns] →
  Charts.rows_gt k name t = inr (select_rows (Num.ltb k <$> ns) t).
Proof.
  intros Hns. unfold Charts.rows_gt. rewrite (mask_column_one _ _ _ Hns).
  run. by rewrite (traverse_fmap (Charts.gt k) Num (Num.ltb k)).
Qed.

Lemma rows_ge_Num (k : number) name t ns :
  labelled name t = [Num <$> ns] →
  Charts.rows_ge k name t = inr (select_rows (Num.leb k <$> ns) t).
Proof.
  intros Hns. unfold Charts.rows_ge. rewrite (mask_column_one _ _ _ Hns).
  run. by rewrite (traverse_fmap (Charts.ge k) Num (Num.leb k)).
Qed.

(** The rows a mask computed from a column keeps. *)
Lemma select_rows_column (g : number → bool) name t ns :
  labelled name t = [Num <$> ns] →
  labelled name (select_rows (g <$> ns) t)
  = [Num <$> filter (λ n, g n) ns].
Proof.
  intros Hns. rewrite labelled_select_rows, Hns. cbn [fmap list_fmap].
  by rewrite mask_filter_map, mask_filter_fmap.
Qed.


Lemma empty_false t :
  empty t = false ↔ len t ≠ 0 ∧ length (columns t) ≠ 0.
Proof.
  unfold empty. rewrite orb_false_iff, !Nat.eqb_neq. done.
Qed.

Lemma labelled_columns name df (s : Series) :
  labelled name df = [s] → length (columns df) ≠ 0.
Proof.
  intros Hs%labelled_present%has_column_true.
  destruct (columns df); [by apply elem_of_nil in Hs | done].
Qed.
End Masks.



(** *** The fee comparison *)



Lemma row_item_one (df : DataFrame) (r : nat) (label : string) (s : Series) :
  labelled label df = [s] →
  Charts.row_item df r label
  = inr (Charts.in_row (Charts.row_dtype df) (at_row r s)).
Proof. unfold Charts.row_item. by intros ->. Qed.

Lemma at_row_Num (r : nat) (ns : list number) (n : number) :
  ns !! r = Some n → at_row r (Num <$> ns) = Num n.
Proof. intros Hn. unfold at_row. by rewrite list_lookup_fmap, Hn. Qed.

Lemma in_row_not_text (T : Charts.dtype) (c : cell) :
  is_text c = false → is_text (Charts.in_row T c) = false.
Proof. destruct T; try done. apply float64_not_text. Qed.

(** An element of a row that comes from a number is a number. *)
Lemma in_row_Num (T : Charts.dtype) (n : number) :
  ∃ x, Charts.in_row T (Num n) = Num x.
Proof. destruct T, n; simpl; eauto. Qed.





(** The comparison of the two plans of the witness.  0.1425 % of 120000 is
    170.99999999999997 in floats, which is less than 171. *)
Example two_plans_comparison :
  Charts.create_fee_comparison_chart (Some Examples.two_plans_loaded)
  = inr (Some
      [ Charts.mkComparison (Str "元大台灣50")
          (Num (f64 17099999999999997 100000000000000))
          (Num (Float (of_int 120)));
        Charts.mkComparison (Str "元大高股息")
          (Num (f64 17099999999999997 100000000000000))
          (Num (Float (of_int 240))) ])
  ∧ Num.ltb (f64 17099999999999997 100000000000000) (Int 171) = true.
Proof. split; vm_compute; reflexivity. Qed.

(** *** The table filter *)

Lemma mask_filter_nil {A} (mask : list bool) : mask_filter mask (@nil A) = [].
Proof. by destruct mask. Qed.

(** Filtering what a first mask kept, by a mask computed from what it kept
    of the column. *)
Lemma mask_filter_compose {A B} (f g : A → bool) (l : list A) (s : list B) :
  mask_filter (g <$> mask_filter (f <$> l) l) (mask_filter (f <$> l) s)
  = mask_filter ((λ x, f x && g x) <$> l) s.
Proof.
  revert s. induction l as [|x l IH]; intros s; [done|].
  rewrite !fmap_cons. destruct s as [|y s].
  - by rewrite !mask_filter_nil.
  - cbn [mask_filter]. destruct (f x); cbn [andb].
    + rewrite fmap_cons. cbn [mask_filter]. rewrite IH. done.
    + apply IH.
Qed.

Lemma select_rows_compose (f g : number → bool) (t : DataFrame)
    (ns : list number) :
  select_rows (g <$> filter (λ n, f n) ns) (select_rows (f <$> ns) t)
  = select_rows ((λ n, f n && g n) <$> ns) t.
Proof.
  rewrite <- mask_filter_fmap. unfold select_rows. cbn [index items].
  f_equal.
  - apply mask_filter_compose.
  - rewrite <- list_fmap_compose. apply list_fmap_ext.
    intros _ [c s] _. unfold compose. cbn [fst snd]. f_equal.
    apply mask_filter_compose.
Qed.

Lemma select_rows_ext (m1 m2 : list bool) (t : DataFrame) :
  m1 = m2 → select_rows m1 t = select_rows m2 t.
Proof. by intros ->. Qed.




(** X11. With a positive minimum amount the box 顯示零投入項目 has no
    effect on the table shown: a row of at least a positive amount is a
    row with a positive amount. *)
Theorem X11_show_zero_without_effect `{ToNumeric}
    (status : nat) (df t : DataFrame) (min_amount : Z) :
  Jason.load_investment_data (inr (Jason.mkResponse status (inr df)))
  = Some t →
  (0 < min_amount)%Z →
  Charts.filtered_df false min_amount t
  = Charts.filtered_df true min_amount t.
Proof.
  intros Hload Hmin.
  destruct (loaded_plan_table _ _ _ Hload) as (ms & ds & Hms & _).
  unfold Charts.filtered_df.
  rewrite (proj2 (Z.ltb_lt _ _)) by done. cbn [negb]. run.
  rewrite (rows_gt_Num _ _ _ _ Hms). run.
  pose proof (select_rows_column (Num.ltb (Int 0)) _ _ _ Hms) as Hpos.
  rewrite (rows_ge_Num _ _ _ _ Hpos), (rows_ge_Num _ _ _ _ Hms).
  rewrite (select_rows_compose (Num.ltb (Int 0))). f_equal.
  apply select_rows_ext, list_fmap_ext. intros _ m _.
  destruct (Num.leb (Int min_amount) m) eqn:Hle;
    [|apply andb_false_r].
  by rewrite (leb_positive_ltb_zero min_amount m Hmin Hle).
Qed.

Lemma X11_show_zero_without_effect_witness :
  Charts.filtered_df false 5000 Examples.two_plans_loaded
  = Charts.filtered_df true 5000 Examples.two_plans_loaded.
Proof.
  apply (X11_show_zero_without_effect 200 Examples.two_plans
           Examples.two_plans_loaded 5000).
  - vm_compute. reflexivity.
  - reflexivity.
Defined.

(** ** The portfolio statistics *)






(** ** Sheets with two to four columns *)

Section NarrowSheets.
Context `{ToNumeric}.
Implicit Types (d t : DataFrame) (name : string).

Lemma labelled_NoDup_present name d :
  NoDup (columns d) → name ∈ columns d → ∃ s, labelled name d = [s].
Proof.
  intros Hd Hname. destruct (labelled_NoDup d name Hd) as [Hnil|Hs]; [|done].
  apply labelled_nil, has_column_false in Hnil. done.
Qed.

Lemma coerce_column_total name d :
  NoDup (columns d) → ∃ d', Jason.coerce_column name d = inr d'.
Proof.
  intros Hd. destruct (labelled_NoDup d name Hd) as [Hnil|[s Hs]].
  - apply labelled_nil in Hnil. rewrite coerce_column_absent by done. eauto.
  - rewrite (coerce_column_present _ _ _ Hs). eauto.
Qed.

Lemma add_derived_total d (ms ds : list number) :
  NoDup (columns d) →
  labelled "每月投入金額" d = [Num <$> ms] →
  labelled "券商折扣" d = [Num <$> ds] →
  ∃ t, Jason.add_derived d = inr t.
Proof.
  intros Hd Hms Hds. unfold Jason.add_derived.
  rewrite (getitem_labelled_one _ _ _ Hms). run. cbn [as_series]. run.
  rewrite mul_scalar_Num. run.
  set (annual := (λ n, of_number (Num.mul n (Int 12))) <$> ms).
  rewrite (getitem_labelled_one _ "券商折扣" (Num <$> ds)).
  2:{ by rewrite labelled_setitem_ne. }
  run. cbn [as_series]. run. rewrite div_scalar_Num. run.
  rewrite (getitem_labelled_one _ "年度投入金額" annual).
  2:{ rewrite labelled_setitem_eq.
      destruct (has_column "年度投入金額" d) eqn:Hc; [|done].
      apply has_column_true in Hc.
      by destruct (labelled_NoDup_present _ _ Hd Hc) as [s ->]. }
  run. cbn [as_series]. run. unfold annual.
  rewrite mul_series_textless.
  2:{ apply Forall_fmap, Forall_true. intros n. apply of_number_not_text. }
  2:{ apply Forall_fmap, Forall_true. intros n. apply of_number_not_text. }
  run. eauto.
Qed.

(** The coercions and the derived columns on a frame with distinct labels
    that has the two columns the derived fields are computed from. *)
Lemma normalize_tail_total d :
  NoDup (columns d) →
  "每月投入金額" ∈ columns d → "券商折扣" ∈ columns d →
  ∃ t, (d ← Jason.coerce_column "每月投入金額" d;
        d ← Jason.coerce_column "扣款日" d;
        d ← Jason.coerce_column "券商折扣" d;
        Jason.add_derived d) = inr t.
Proof.
  intros Hd Hmonth Hdisc.
  destruct (labelled_NoDup_present _ _ Hd Hmonth) as [s Hs].
  destruct (labelled_NoDup_present _ _ Hd Hdisc) as [s' Hs'].
  destruct (coerce_column_total "每月投入金額" d Hd) as [d1 Hd1].
  destruct (coerce_column_spec _ _ _ Hd1) as (_ & Hc1 & Ho1 & Hm1 & _).
  assert (Hn1 : NoDup (columns d1)) by by rewrite Hc1.
  destruct (coerce_column_total "扣款日" d1 Hn1) as [d2 Hd2].
  destruct (coerce_column_spec _ _ _ Hd2) as (_ & Hc2 & Ho2 & _ & _).
  assert (Hn2 : NoDup (columns d2)) by by rewrite Hc2.
  destruct (coerce_column_total "券商折扣" d2 Hn2) as [d3 Hd3].
  destruct (coerce_column_spec _ _ _ Hd3) as (_ & Hc3 & Ho3 & Hm3 & _).
  assert (Hn3 : NoDup (columns d3)) by by rewrite Hc3.
  rewrite Hd1. run. rewrite Hd2. run. rewrite Hd3. run.
  assert (Hmonthly : labelled "每月投入金額" d3 = [filled s]).
  { rewrite Ho3, Ho2 by done.
    destruct Hm1 as [[Hnil _]|(s0 & Hs0 & ->)]; congruence. }
  assert (Hdiscount : labelled "券商折扣" d3 = [filled s']).
  { destruct Hm3 as [[Hnil _]|(s0 & Hs0 & ->)].
    - rewrite Ho2, Ho1 in Hnil by done. congruence.
    - rewrite Ho2, Ho1 in Hs0 by done. congruence. }
  destruct (proj1 (numeric_fmap _) (filled_numeric s)) as [ms Hms].
  destruct (proj1 (numeric_fmap _) (filled_numeric s')) as [ds Hds].
  rewrite Hms in Hmonthly. rewrite Hds in Hdiscount.
  exact (add_derived_total d3 ms ds Hn3 Hmonthly Hdiscount).
Qed.
End NarrowSheets.

(** X15. A sheet with two to four columns is loaded under its own
    headers, and it does load when its trimmed headers are pairwise
    distinct and include 每月投入金額 and 券商折扣 (and the status is not an
    error status); the loaded table has the sheet's trimmed headers
    followed by the two derived columns. *)
Theorem X15_narrow_sheet_loads `{ToNumeric} (status : nat) (df : DataFrame) :
  status < 400 ∨ 600 ≤ status →
  2 ≤ length (columns df) < 5 →
  NoDup (Text.strip <$> columns df) →
  "每月投入金額" ∈ Text.strip <$> columns df →
  "券商折扣" ∈ Text.strip <$> columns df →
  ∃ t,
    Jason.load_investment_data (inr (Jason.mkResponse status (inr df)))
    = Some t
    ∧ columns t
      = with_label "預估年度手續費"
          (with_label "年度投入金額" (Text.strip <$> columns df)).
Proof.
  intros Hstatus [Hlo Hhi] Hdf Hmonth Hdisc.
  rewrite load_investment_data_ok by done.
  destruct (drop_blank_rows_total (str_strip df)) as [d0 Hd0].
  { by rewrite columns_str_strip, length_fmap. }
  assert (Hcols : columns d0 = Text.strip <$> columns df).
  { by rewrite (drop_blank_rows_columns _ _ Hd0), columns_str_strip. }
  assert (Hrename : Jason.rename_columns d0 = inr d0).
  { apply rename_columns_narrow. by rewrite Hcols, length_fmap. }
  destruct (normalize_tail_total d0) as [t Ht]; rewrite ?Hcols; try done.
  assert (Hnorm : Jason.normalize df = inr t).
  { unfold Jason.normalize. rewrite Hd0. run. rewrite Hrename. run.
    exact Ht. }
  rewrite Hnorm. exists t. split; [done|].
  destruct (normalize_columns _ _ Hnorm) as (d0' & d' & Hd0' & Hd' & ->).
  assert (d0' = d0) as -> by congruence.
  assert (d' = d0) as -> by congruence.
  by rewrite Hcols.
Qed.

Lemma X15_narrow_sheet_loads_witness :
  ∃ t,
    Jason.load_investment_data (Examples.ok Examples.own_headers) = Some t
    ∧ columns t
      = with_label "預估年度手續費"
          (with_label "年度投入金額"
             (Text.strip <$> columns Examples.own_headers)).
Proof.
  apply (X15_narrow_sheet_loads 200 Examples.own_headers).
  - left. lia.
  - simpl. lia.
  - apply (bool_decide_unpack _). vm_compute. exact I.
  - apply (bool_decide_unpack _). vm_compute. exact I.
  - apply (bool_decide_unpack _). vm_compute. exact I.
Defined.

Example own_headers_load :
  Jason.load_investment_data (Examples.ok Examples.own_headers)
  = Some Examples.own_headers_loaded.
Proof. vm_compute. reflexivity. Qed.

(** ** The fee comparison on a table without names *)

Lemma traverse_raises {A B} (f : A → result B) (l : list A) (e : exn) :
  Forall (λ a, f a = inl e ∨ ∃ b, f a = inr b) l →
  Exists (λ a, f a = inl e) l →
  traverse f l = inl e.
Proof.
  induction 1 as [|a l Ha _ IH]; intros Hex; [by apply Exists_nil in Hex|].
  simpl. destruct Ha as [->|[b Hb]]; [done|]. rewrite Hb. run.
  apply Exists_cons in Hex as [Hex|Hex]; [congruence|].
  by rewrite IH.
Qed.

Lemma fmap_Num_inj (xs ys : list number) :
  Num <$> xs = Num <$> ys → xs = ys.
Proof.
  revert ys. induction xs as [|x xs IH]; intros [|y ys]; try done.
  rewrite !fmap_cons. intros [= -> Hrest]. f_equal. by apply IH.
Qed.

(** One row of the comparison on a table without the column 股票名稱: the
    name is looked up last, and only for a positive amount. *)
Lemma compare_row_unnamed (t : DataFrame) (ms ds : list number) (r : nat)
    (m d : number) :
  plan_table t ms ds → labelled "股票名稱" t = [] →
  ms !! r = Some m → ds !! r = Some d →
  Charts.compare_row t r
  = if Num.ltb (Int 0) m then inl KeyError else inr None.
Proof.
  intros (Hms & Hds & Hannual & _) Hnames Hm Hd.
  unfold Charts.compare_row.
  rewrite (row_item_one _ _ _ _ Hms), (at_row_Num _ _ _ Hm). run.
  rewrite gt_zero_in_row. run. destruct (Num.ltb (Int 0) m); [|done].
  rewrite (row_item_one _ _ _ _ Hannual).
  assert (at_row r (annual_amounts ms) = annual_amount m) as ->.
  { unfold at_row, annual_amounts. by rewrite list_lookup_fmap, Hm. }
  assert (Ha : is_text (Charts.in_row (Charts.row_dtype t) (annual_amount m))
               = false).
  { apply in_row_not_text, of_number_not_text. }
  run. rewrite arith_textless by (done || apply lift_not_text). run.
  rewrite (row_item_one _ _ _ _ Hds), (at_row_Num _ _ _ Hd). run.
  destruct (in_row_Num (Charts.row_dtype t) d) as [y Hy]. rewrite Hy.
  rewrite arith_textless by done. run.
  rewrite arith_textless by (done || apply lift_not_text). run.
  unfold Charts.row_item. by rewrite Hnames.
Qed.

(** X16. A table loaded from a sheet that has no column called 股票名稱
    (a sheet with fewer than five columns keeps its own headers) makes the
    fee comparison raise [KeyError] as soon as one plan has a positive
    monthly amount: the loop reads the name of every such row. *)
Theorem X16_fee_comparison_without_names `{ToNumeric}
    (status : nat) (df t : DataFrame) (ms : list number) :
  rectangular df →
  Jason.load_investment_data (inr (Jason.mkResponse status (inr df)))
  = Some t →
  "股票名稱" ∉ columns t →
  labelled "每月投入金額" t = [Num <$> ms] →
  Exists (λ m, Num.ltb (Int 0) m = true) ms →
  Charts.create_fee_comparison_chart (Some t) = inl KeyError.
Proof.
  intros Hrect Hload Hnames Hms Hpos.
  pose proof (loaded_rectangular _ _ _ Hrect Hload) as Ht.
  destruct (loaded_plan_table _ _ _ Hload) as (ms' & ds & Hplan).
  assert (ms' = ms) as ->.
  { destruct Hplan as (Hms' & _). apply fmap_Num_inj. congruence. }
  destruct (plan_table_lengths _ _ _ Ht Hplan) as [Hlms Hlds].
  apply has_column_false, labelled_nil in Hnames.
  unfold Charts.create_fee_comparison_chart.
  assert (Hempty : empty t = false).
  { apply empty_false. split.
    - rewrite <- Hlms. destruct ms; [by apply Exists_nil in Hpos | done].
    - by eapply labelled_columns. }
  rewrite Hempty.
  assert (Hrow : ∀ r, r < len t →
            ∃ m, ms !! r = Some m
                 ∧ Charts.compare_row t r
                   = if Num.ltb (Int 0) m then inl KeyError else inr None).
  { intros r Hr.
    destruct (lookup_lt_is_Some_2 ms r) as [m Hm]; [lia|].
    destruct (lookup_lt_is_Some_2 ds r) as [d Hd]; [lia|].
    exists m. split; [done|].
    exact (compare_row_unnamed _ _ _ _ _ _ Hplan Hnames Hm Hd). }
  rewrite (traverse_raises (Charts.compare_row t) _ KeyError); [done|..].
  - apply Forall_forall. intros r Hr%elem_of_seq.
    destruct (Hrow r) as (m & _ & ->); [lia|].
    destruct (Num.ltb (Int 0) m); eauto.
  - apply Exists_exists in Hpos as (m & Hm & Hlt).
    apply list_elem_of_lookup in Hm as [r Hr].
    apply Exists_exists. exists r. split.
    + apply elem_of_seq. apply lookup_lt_Some in Hr. lia.
    + destruct (Hrow r) as (m' & Hm' & ->).
      { apply lookup_lt_Some in Hr. lia. }
      assert (m' = m) as -> by congruence.
      by rewrite Hlt.
Qed.

Lemma X16_fee_comparison_without_names_witness :
  Charts.create_fee_comparison_chart (Some Examples.own_headers_loaded)
  = inl KeyError.
Proof.
  apply (X16_fee_comparison_without_names 200 Examples.own_headers
           Examples.own_headers_loaded [Int 1000; Int 0]).
  - repeat constructor.
  - vm_compute. reflexivity.
  - apply (bool_decide_unpack _). vm_compute. exact I.
  - reflexivity.
  - apply Exists_cons_hd. reflexivity.
Defined.
